(** * linter-eslint worker: request dispatcher, job runner and rule registry

    Shallow embedding of [src/worker.js] (the message handler, [lintJob] and
    [fixJob]) together with a model of the helper module [worker-helpers]
    that the worker calls and whose tests are in the repository. *)

From Stdlib Require Import List String Bool ZArith Lia PeanoNat.
Import ListNotations.

Local Open Scope string_scope.
Local Open Scope list_scope.

(** ** Paths

    A path as Node's [path] module sees it once normalised: whether it is
    rooted, and its segments. The empty relative path stands for ['.']
    (and for [''], which [Path.dirname] and [Path.join] treat alike). *)

Module Path.

Record t : Type := mk { absolute : bool; segments : list string }.

Definition root : t := mk true [].
Definition cwd : t := mk false [].

Definition eqb (p q : t) : bool :=
  Bool.eqb (absolute p) (absolute q)
  && (if list_eq_dec string_dec (segments p) (segments q) then true else false).

(** [Path.isAbsolute] *)
Definition isAbsolute (p : t) : bool := absolute p.

(** [Path.dirname]: drops the last segment; the root and ['.'] are their
    own parents. *)
Definition dirname (p : t) : t := mk (absolute p) (removelast (segments p)).

(** [Path.basename]: the last segment, as a relative path. *)
Definition basename (p : t) : t :=
  mk false (match rev (segments p) with [] => [] | s :: _ => [s] end).

(** [Path.join a b]: the segments of [b] appended to [a]. *)
Definition join (a b : t) : t := mk (absolute a) (segments a ++ segments b).

(** [join] with a list of plain segment names, as in
    [Path.join(dir, 'node_modules', 'eslint')]. *)
Definition sub (a : t) (names : list string) : t := join a (mk false names).

(** The part of [to] left after the longest common prefix with [from],
    and what is left of [from]. *)
Fixpoint strip (from to : list string) : list string * list string :=
  match from, to with
  | f :: from', x :: to' =>
      if String.eqb f x then strip from' to' else (from, to)
  | _, _ => (from, to)
  end.

(** [Path.relative from to]: one ['..'] for each segment of [from] below
    the common prefix, then the rest of [to]. *)
Definition relative (from to : t) : t :=
  let '(up, down) := strip (segments from) (segments to) in
  mk false (map (fun _ => "..") up ++ down).

(** [a] is [p] or a directory above it. *)
Fixpoint prefixb (a p : list string) : bool :=
  match a, p with
  | [], _ => true
  | x :: a', y :: p' => String.eqb x y && prefixb a' p'
  | _ :: _, [] => false
  end.

Definition isAncestor (a p : t) : bool :=
  Bool.eqb (absolute a) (absolute p) && prefixb (segments a) (segments p).

(** The directories from [p] up to the root, nearest first. *)
Fixpoint ancestorsRev (rsegs : list string) : list (list string) :=
  match rsegs with
  | [] => [[]]
  | _ :: up => rev rsegs :: ancestorsRev up
  end.

Definition ancestors (p : t) : list t :=
  map (mk (absolute p)) (ancestorsRev (rev (segments p))).

End Path.

(** ** JavaScript values carried through the worker *)

(** Rule metadata is a JSON-like value (schema, category, ...). *)
#[local] Set Warnings "-register-all".
Inductive Json : Type :=
| JNull
| JBool (b : bool)
| JNum (n : Z)
| JStr (s : string)
| JArr (items : list Json)
| JObj (fields : list (string * Json)).

(** Structural comparison of two values, field by field. *)
Fixpoint deepEqual (a b : Json) {struct a} : bool :=
  match a, b with
  | JNull, JNull => true
  | JBool x, JBool y => Bool.eqb x y
  | JNum x, JNum y => Z.eqb x y
  | JStr x, JStr y => String.eqb x y
  | JArr xs, JArr ys =>
      (fix items (xs ys : list Json) {struct xs} : bool :=
         match xs, ys with
         | [], [] => true
         | x :: xs', y :: ys' => deepEqual x y && items xs' ys'
         | _, _ => false
         end) xs ys
  | JObj fs, JObj gs =>
      (fix fields (fs gs : list (string * Json)) {struct fs} : bool :=
         match fs, gs with
         | [], [] => true
         | (k, x) :: fs', (l, y) :: gs' =>
             String.eqb k l && deepEqual x y && fields fs' gs'
         | _, _ => false
         end) fs gs
  | _, _ => false
  end.

(** A rule's metadata object: the object's identity (two objects built
    separately differ in it even when their contents agree) and its
    contents. *)
Record RuleMeta : Type := mkMeta { objectId : nat; props : Json }.

Definition sameValue (a b : RuleMeta) : bool := deepEqual (props a) (props b).

(** ** JavaScript [Map] keyed by rule id

    The entries in insertion order; a [Map] holds each key once. *)

Module JsMap.

Definition t : Type := list (string * RuleMeta).

Definition empty : t := [].

Definition keys (m : t) : list string := map fst m.

(** The typing invariant of a [Map]: no key twice. *)
Definition wf (m : t) : Prop := NoDup (keys m).

Definition size (m : t) : nat := List.length m.

Fixpoint get (m : t) (k : string) : option RuleMeta :=
  match m with
  | [] => None
  | (k', v) :: m' => if String.eqb k' k then Some v else get m' k
  end.

(** [m.set(k, v)]: overwrites in place when [k] is present, appends
    otherwise. *)
Fixpoint set (m : t) (k : string) (v : RuleMeta) : t :=
  match m with
  | [] => [(k, v)]
  | (k', v') :: m' =>
      if String.eqb k' k then (k', v) :: m' else (k', v') :: set m' k v
  end.

(** [m.clear()] *)
Definition clear (m : t) : t := empty.

(** [m.forEach((value, key) => ...)] threading the state the callback
    mutates. *)
Definition forEach {S : Type} (m : t) (f : RuleMeta -> string -> S -> S)
  (s : S) : S :=
  fold_left (fun acc kv => f (snd kv) (fst kv) acc) m s.

End JsMap.

(** ** Data model of the worker *)

(** The configuration object sent with each job. *)
Record Config : Type := mkConfig {
  useGlobalEslint : bool;
  globalNodePath : Path.t;
  advancedLocalNodeModules : option Path.t;
  disableFSCache : bool;
  disableEslintIgnore : bool;
  disableWhenNoEslintConfig : bool
}.

(** One diagnostic of the engine; the worker passes it through. *)
Record Diagnostic : Type := mkDiagnostic {
  ruleId : option string;
  severity : Z;
  line : Z;
  column : Z;
  message : string
}.

(** [{ results: [{ messages: [...] }] }] *)
Record LintResult : Type := mkResult { messages : list Diagnostic }.
Record Report : Type := mkReport { results : list LintResult }.

(** Where an engine installation was found: [{ path, type }], the type
    one of "bundled fallback", "global", "local project" and
    "advanced specified". *)
Module Descriptor.
Record t : Type := mk { path : Path.t; type : string }.
End Descriptor.

(** What a JavaScript call can throw. *)
Inductive Error : Type :=
| EngineNotFoundError
| EngineExecutionError
| JsError (msg : string).

Inductive Exc (A : Type) : Type :=
| Throws (e : Error)
| Returns (a : A).
Arguments Throws {A} e.
Arguments Returns {A} a.

(** Per-request rule overrides. *)
Definition RuleOverrides : Type := list (string * Json).

(** The options object [Helpers.getCLIEngineOptions] builds for the
    engine. *)
Definition CLIEngineOptions : Type := Json.

(** An engine instance, [new eslint.CLIEngine(options)]. *)
Record CLIEngine : Type := mkEngine {
  executeOnText : string -> Path.t -> Exc Report;
  definedRules : JsMap.t
}.

(** A loaded engine module. *)
Record ESLint : Type := mkESLint {
  newCLIEngine : CLIEngineOptions -> Exc CLIEngine;
  outputFixes : Report -> Exc unit
}.

(** The job description received as a message. *)
Module Job.
Record t : Type := mk {
  contents : string;
  type : string;
  config : Config;
  filePath : Path.t;
  projectPath : option Path.t;
  rules : option RuleOverrides;
  emitKey : string
}.
End Job.

(** What [emit] sends back. *)
Inductive Response : Type :=
| LintResponse (msgs : list Diagnostic)
    (updatedRules : option (list (string * RuleMeta)))
| FixResponse (status : string)
| DebugResponse (found : Descriptor.t)
| UndefinedResponse.

(** The calls a run's trace keeps, in the order made: the cache clear,
    the engine resolution, the configuration lookup, the engine's
    execution and fix output, the debug lookup, and what is emitted. *)
Inductive Event : Type :=
| FindCacheClear
| GetESLintInstance (fileDir : Path.t) (config : Config)
    (projectPath : option Path.t)
| GetConfigPath (fileDir : Path.t)
| ExecuteOnText (options : CLIEngineOptions) (contents : string)
    (filePath : Path.t)
| OutputFixes (report : Report)
| FindESLintDirectory (modulesDir : Path.t)
| Emit (emitKey : string) (response : Response).

(** The modules the worker imports: [worker-helpers],
    [is-config-at-home-root] and atom-linter's [findCached]. *)
Record Collaborators : Type := mkCollaborators {
  getESLintInstance : Path.t -> Config -> option Path.t -> Exc ESLint;
  getConfigPath : Path.t -> option Path.t;
  getRelativePath : Path.t -> Path.t -> Config -> option Path.t -> Path.t;
  getCLIEngineOptions :
    string -> Config -> option RuleOverrides -> Path.t -> Path.t ->
    option Path.t -> CLIEngineOptions;
  getRules : CLIEngine -> JsMap.t;
  didRulesChange : JsMap.t -> JsMap.t -> bool;
  findESLintDirectory : Path.t -> Config -> option Path.t -> Exc Descriptor.t;
  isConfigAtHomeRoot : Path.t -> bool;
  findCached : Path.t -> Path.t -> option Path.t
}.

(** Module-level state of [worker.js]. *)
Record WorkerState : Type := mkState {
  rulesMetadata : JsMap.t;
  sendRules : bool
}.

Definition initialState : WorkerState := mkState JsMap.empty false.

(** ** The worker's computations: state, trace of outside calls, exceptions *)

Record Run (A : Type) : Type := mkRun {
  final : WorkerState;
  trace : list Event;
  outcome : Exc A
}.
Arguments mkRun {A} final trace outcome.
Arguments final {A} r.
Arguments trace {A} r.
Arguments outcome {A} r.

Definition M (A : Type) : Type := WorkerState -> Run A.

Definition ret {A : Type} (a : A) : M A :=
  fun st => mkRun st [] (Returns a).

Definition bind {A B : Type} (m : M A) (k : A -> M B) : M B :=
  fun st =>
    let r := m st in
    match outcome r with
    | Throws e => mkRun (final r) (trace r) (Throws e)
    | Returns a =>
        let r' := k a (final r) in
        mkRun (final r') (trace r ++ trace r') (outcome r')
    end.

Notation "x <- m ;; k" := (bind m (fun x => k))
  (at level 61, m at next level, right associativity).
Notation "m ;; k" := (bind m (fun _ => k))
  (at level 61, right associativity).

(** An outside call: recorded, then its result or its exception. *)
Definition call {A : Type} (ev : Event) (r : Exc A) : M A :=
  fun st => mkRun st [ev] r.

(** A call inside the process, left out of the trace. *)
Definition lift {A : Type} (r : Exc A) : M A := fun st => mkRun st [] r.

Definition getState : M WorkerState := fun st => mkRun st [] (Returns st).
Definition putState (st' : WorkerState) : M unit :=
  fun _ => mkRun st' [] (Returns tt).

Definition emit (key : string) (response : Response) : M unit :=
  call (Emit key response) (Returns tt).

(** ** [worker.js] *)

Section Worker.

Variable Helpers : Collaborators.

(** [rulesMetadata.clear(); rules.forEach((properties, rule) =>
    rulesMetadata.set(rule, properties))] *)
Definition rebuild (rulesMetadata rules : JsMap.t) : JsMap.t :=
  JsMap.forEach rules (fun properties rule acc => JsMap.set acc rule properties)
    (JsMap.clear rulesMetadata).

(** Lines 19-24 of [lintJob]: set [sendRules], rebuild the snapshot when it
    is set. *)
Definition syncRules (rules : JsMap.t) : M unit :=
  st <- getState ;;
  putState (mkState (rulesMetadata st)
              (didRulesChange Helpers (rulesMetadata st) rules)) ;;
  st <- getState ;;
  if sendRules st
  then putState (mkState (rebuild (rulesMetadata st) rules) (sendRules st))
  else ret tt.

Definition lintJob (cliEngineOptions : CLIEngineOptions) (contents : string)
  (eslint : ESLint) (filePath : Path.t) : M Report :=
  cliEngine <- lift (newCLIEngine eslint cliEngineOptions) ;;
  report <- call (ExecuteOnText cliEngineOptions contents filePath)
              (executeOnText cliEngine contents filePath) ;;
  let rules := getRules Helpers cliEngine in
  syncRules rules ;;
  ret report.

Definition fixComplete : string := "Linter-ESLint: Fix complete.".
Definition fixIncomplete : string :=
  "Linter-ESLint: Fix attempt complete, but linting errors remain.".

(** [!report.results.length || !report.results[0].messages.length] *)
Definition nothingLeft (report : Report) : bool :=
  match results report with
  | [] => true
  | first :: _ =>
      match messages first with
      | [] => true
      | _ :: _ => false
      end
  end.

Definition fixJob (cliEngineOptions : CLIEngineOptions) (contents : string)
  (eslint : ESLint) (filePath : Path.t) : M string :=
  report <- lintJob cliEngineOptions contents eslint filePath ;;
  call (OutputFixes report) (outputFixes eslint report) ;;
  if nothingLeft report then ret fixComplete else ret fixIncomplete.

(** [report.results.length ? report.results[0].messages : []] *)
Definition firstMessages (report : Report) : list Diagnostic :=
  match results report with
  | [] => []
  | first :: _ => messages first
  end.

(** [rulesMetadata.forEach((props, rule) =>
    response.updatedRules.push([rule, props]))] *)
Definition exportRules (rulesMetadata : JsMap.t) : list (string * RuleMeta) :=
  JsMap.forEach rulesMetadata (fun props rule acc => acc ++ [(rule, props)]) [].

(** Lines 62-79 of the callback: the response, by job type. *)
Definition respond (type : string) (cliEngineOptions : CLIEngineOptions)
  (contents : string) (eslint : ESLint) (filePath fileDir : Path.t)
  (config : Config) (projectPath : option Path.t) : M Response :=
  if String.eqb type "lint" then
    report <- lintJob cliEngineOptions contents eslint filePath ;;
    st <- getState ;;
    ret (LintResponse (firstMessages report)
           (if sendRules st
            then Some (exportRules (rulesMetadata st))
            else None))
  else if String.eqb type "fix" then
    status <- fixJob cliEngineOptions contents eslint filePath ;;
    ret (FixResponse status)
  else if String.eqb type "debug" then
    let modulesDir :=
      Path.dirname
        (match findCached Helpers fileDir
                 (Path.mk false ["node_modules"; "eslint"]) with
         | Some found => found
         | None => Path.cwd
         end) in
    found <- call (FindESLintDirectory modulesDir)
               (findESLintDirectory Helpers modulesDir config projectPath) ;;
    ret (DebugResponse found)
  else ret UndefinedResponse.

(** The [process.on('message', ...)] callback. *)
Definition handle (jobConfig : Job.t) : M unit :=
  let contents := Job.contents jobConfig in
  let type := Job.type jobConfig in
  let config := Job.config jobConfig in
  let filePath := Job.filePath jobConfig in
  let projectPath := Job.projectPath jobConfig in
  let rules := Job.rules jobConfig in
  let emitKey := Job.emitKey jobConfig in
  (if disableFSCache config then call FindCacheClear (Returns tt) else ret tt) ;;
  let fileDir := Path.dirname filePath in
  eslint <- call (GetESLintInstance fileDir config projectPath)
              (getESLintInstance Helpers fileDir config projectPath) ;;
  configPath <- call (GetConfigPath fileDir)
                  (Returns (getConfigPath Helpers fileDir)) ;;
  let noProjectConfig :=
    match configPath with
    | None => true
    | Some p => isConfigAtHomeRoot Helpers p
    end in
  if noProjectConfig && disableWhenNoEslintConfig config
  then emit emitKey (LintResponse [] None)
  else
    let relativeFilePath :=
      getRelativePath Helpers fileDir filePath config projectPath in
    let cliEngineOptions :=
      getCLIEngineOptions Helpers type config rules relativeFilePath fileDir
        configPath in
    response <- respond type cliEngineOptions contents eslint filePath
                  fileDir config projectPath ;;
    emit emitKey response.

End Worker.

(** The requests one worker process serves in turn, each with the
    collaborators (file system, engine) as they are when it arrives;
    [rulesMetadata] and [sendRules] carry over, also past a request that
    threw. *)
Fixpoint serve (requests : list (Collaborators * Job.t)) (st : WorkerState)
  : list (Run unit) :=
  match requests with
  | [] => []
  | (Helpers, jobConfig) :: rest =>
      let r := handle Helpers jobConfig st in
      r :: serve rest (final r)
  end.

(** The responses in a trace; those a run emitted, and the engine calls
    it made. *)
Definition emitsOf (tr : list Event) : list (string * Response) :=
  flat_map (fun ev => match ev with Emit k resp => [(k, resp)] | _ => [] end)
    tr.

Definition emitted {A : Type} (r : Run A) : list (string * Response) :=
  emitsOf (trace r).

Definition isExecution (ev : Event) : bool :=
  match ev with
  | ExecuteOnText _ _ _ | OutputFixes _ => true
  | _ => false
  end.

Definition executions {A : Type} (r : Run A) : list Event :=
  filter isExecution (trace r).

(** ** [worker-helpers]: engine locator, path normaliser, rule registry

    The module itself is not among the sources (its tests are); these
    definitions follow the specification's description of it. *)

(** Modelled from the spec: the file-system reads of the missing
    [worker-helpers]: the engine module installed at a directory (if any),
    and which files exist. *)
Record FileSystem : Type := mkFS {
  engineAt : Path.t -> option ESLint;
  fileAt : Path.t -> bool
}.

(** Modelled from the spec: the worker's own installation as the missing
    [worker-helpers] sees it: [process.platform], and the engine bundled
    with the package. *)
Record Installation : Type := mkInstallation {
  platform : string;
  bundledPath : Path.t;
  bundledEngine : ESLint
}.

(** Modelled from the spec: the EngineHandle that the locator of the
    missing [worker-helpers] returns, a loaded engine with its
    [{path, type}] descriptor. *)
Record EngineHandle : Type := mkHandle {
  engine : ESLint;
  descriptor : Descriptor.t
}.

Module EngineLocator.

(** The engine's directory name, as in ['node_modules/eslint'] of line 77
    of [worker.js]. *)
Definition engineName : string := "eslint".

(** Modelled from the spec: the absolute form of
    [config.advancedLocalNodeModules] ([worker-helpers] is missing):
    taken relative to [projectPath] when not already absolute. *)
Definition advancedModules (projectPath : option Path.t) (p : Path.t) : Path.t :=
  if Path.isAbsolute p then p
  else match projectPath with
       | Some project => Path.join project p
       | None => p
       end.

(** Modelled from the spec: the platform-dependent layout under
    [config.globalNodePath] ([worker-helpers] is missing; the platform test
    is the one of its tests): [node_modules] directly on win32,
    [lib/node_modules] elsewhere. *)
Definition globalModules (platform : string) (prefix : Path.t) : Path.t :=
  if String.eqb platform "win32"
  then Path.sub prefix ["node_modules"]
  else Path.sub prefix ["lib"; "node_modules"].

(** Modelled from the spec: the upward walk for the nearest
    [node_modules/<engine>] ([worker-helpers] is missing): the first of
    the given directories that has one. *)
Fixpoint nearest (fs : FileSystem) (dirs : list Path.t)
  : option (Path.t * ESLint) :=
  match dirs with
  | [] => None
  | dir :: above =>
      let candidate := Path.sub dir ["node_modules"; engineName] in
      match engineAt fs candidate with
      | Some m => Some (candidate, m)
      | None => nearest fs above
      end
  end.

(** Modelled from the spec: [EngineLocator.resolve(startDir, config,
    projectPath)] ([getESLintInstance] and [findESLintDirectory] of the
    missing [worker-helpers]), the four steps in order, first match wins. *)
Definition resolve (inst : Installation) (fs : FileSystem)
  (startDir : Path.t) (config : Config) (projectPath : option Path.t)
  : Exc EngineHandle :=
  match advancedLocalNodeModules config with
  | Some p =>
      let dir := Path.sub (advancedModules projectPath p) [engineName] in
      match engineAt fs dir with
      | Some m => Returns (mkHandle m (Descriptor.mk dir "advanced specified"))
      | None => Throws EngineNotFoundError
      end
  | None =>
      if useGlobalEslint config then
        let dir :=
          Path.sub (globalModules (platform inst) (globalNodePath config))
            [engineName] in
        match engineAt fs dir with
        | Some m => Returns (mkHandle m (Descriptor.mk dir "global"))
        | None => Throws EngineNotFoundError
        end
      else
        match nearest fs (Path.ancestors startDir) with
        | Some (dir, m) =>
            Returns (mkHandle m (Descriptor.mk dir "local project"))
        | None =>
            Returns (mkHandle (bundledEngine inst)
                       (Descriptor.mk (bundledPath inst) "bundled fallback"))
        end
  end.

(** Modelled from the spec: [Helpers.getESLintInstance] of the missing
    [worker-helpers], the engine of the handle [resolve] returns. *)
Definition getESLintInstance (inst : Installation) (fs : FileSystem)
  (fileDir : Path.t) (config : Config) (projectPath : option Path.t)
  : Exc ESLint :=
  match resolve inst fs fileDir config projectPath with
  | Throws e => Throws e
  | Returns h => Returns (engine h)
  end.

End EngineLocator.

Module PathNormalizer.

(** Modelled from the spec: the name of the ignore file ([worker-helpers]
    is missing; the fixture directory of its tests is named after it). *)
Definition ignoreName : string := ".eslintignore".

(** Modelled from the spec: the search for an ignore file
    ([worker-helpers] is missing): the first of the given directories that
    holds one. *)
Fixpoint findIgnore (fs : FileSystem) (dirs : list Path.t) : option Path.t :=
  match dirs with
  | [] => None
  | dir :: above =>
      let candidate := Path.sub dir [ignoreName] in
      if fileAt fs candidate then Some candidate else findIgnore fs above
  end.

(** Modelled from the spec: [PathNormalizer.relativePath]
    ([getRelativePath] of the missing [worker-helpers]). The spec gives no
    test for its third fallback condition, a directory that cannot be
    used; a directory found by the walk is taken as usable. *)
Definition relativePath (fs : FileSystem) (fileDir filePath : Path.t)
  (config : Config) (projectPath : option Path.t) : Path.t :=
  let ignoreFile :=
    if disableEslintIgnore config then None
    else findIgnore fs (Path.ancestors fileDir) in
  match ignoreFile with
  | Some found => Path.relative (Path.dirname found) filePath
  | None =>
      match projectPath with
      | Some project =>
          if Path.isAncestor project filePath
          then Path.relative project filePath
          else Path.basename filePath
      | None => Path.basename filePath
      end
  end.

End PathNormalizer.

Module RuleRegistry.

(** Modelled from the spec: [RuleRegistry.diff]'s comparison
    ([didRulesChange] of the missing [worker-helpers]): the stored snapshot
    and the current rules differ when a rule was added, removed, or has
    metadata of another value. Two maps agree when they have the same size
    and every stored rule is current with metadata of the same value. *)
Definition didRulesChange (currentRules newRules : JsMap.t) : bool :=
  negb (Nat.eqb (JsMap.size currentRules) (JsMap.size newRules)
        && forallb
             (fun kv =>
                match JsMap.get newRules (fst kv) with
                | Some v => sameValue (snd kv) v
                | None => false
                end)
             currentRules).

(** Modelled from the spec: the engine's enumerable active rules
    ([getRules] of the missing [worker-helpers]). *)
Definition getRules (cliEngine : CLIEngine) : JsMap.t :=
  definedRules cliEngine.

(** The registry of the spec in the place of the worker's helpers. *)
Definition install (Helpers : Collaborators) : Collaborators :=
  mkCollaborators
    (getESLintInstance Helpers) (getConfigPath Helpers)
    (getRelativePath Helpers) (getCLIEngineOptions Helpers)
    getRules didRulesChange
    (findESLintDirectory Helpers) (isConfigAtHomeRoot Helpers)
    (findCached Helpers).

(** [RuleRegistry.diff(current)] on the worker's state: lines 19-24 of
    [lintJob] with the comparison above. *)
Definition diff (Helpers : Collaborators) (current : JsMap.t)
  (st : WorkerState) : bool * WorkerState :=
  let r := syncRules (install Helpers) current st in
  (sendRules (final r), final r).

(** Two rule sets differ at a rule id: present in one only, or present in
    both with metadata of different values. *)
Definition differAt (a b : JsMap.t) (rule : string) : Prop :=
  match JsMap.get a rule, JsMap.get b rule with
  | None, None => False
  | Some x, Some y => sameValue x y = false
  | _, _ => True
  end.

End RuleRegistry.

(** The locator of the spec in the place of the worker's helper. *)
Definition withLocator (inst : Installation) (fs : FileSystem)
  (Helpers : Collaborators) : Collaborators :=
  mkCollaborators
    (EngineLocator.getESLintInstance inst fs) (getConfigPath Helpers)
    (getRelativePath Helpers) (getCLIEngineOptions Helpers)
    (getRules Helpers) (didRulesChange Helpers)
    (findESLintDirectory Helpers) (isConfigAtHomeRoot Helpers)
    (findCached Helpers).

(** ** Vocabulary of the statements *)

Section RequestFacts.

Variable Helpers : Collaborators.
Variable jobConfig : Job.t.

Definition fileDirOf : Path.t := Path.dirname (Job.filePath jobConfig).

(** The engine resolution of the request (line 49). *)
Definition resolved : Exc ESLint :=
  getESLintInstance Helpers fileDirOf (Job.config jobConfig)
    (Job.projectPath jobConfig).

(** [noProjectConfig] of line 51. *)
Definition noProjectConfig : bool :=
  match getConfigPath Helpers fileDirOf with
  | None => true
  | Some p => isConfigAtHomeRoot Helpers p
  end.

(** The condition of line 52. *)
Definition skips : bool :=
  noProjectConfig && disableWhenNoEslintConfig (Job.config jobConfig).

(** The options of lines 57-60. *)
Definition optionsOf : CLIEngineOptions :=
  getCLIEngineOptions Helpers (Job.type jobConfig) (Job.config jobConfig)
    (Job.rules jobConfig)
    (getRelativePath Helpers fileDirOf (Job.filePath jobConfig)
       (Job.config jobConfig) (Job.projectPath jobConfig))
    fileDirOf (getConfigPath Helpers fileDirOf).

(** The request reaches the engine and the engine returns: its report and
    its rules. *)
Definition engineRan (eslint : ESLint) (report : Report) (rules : JsMap.t)
  : Prop :=
  resolved = Returns eslint /\
  skips = false /\
  exists cliEngine,
    newCLIEngine eslint optionsOf = Returns cliEngine /\
    executeOnText cliEngine (Job.contents jobConfig) (Job.filePath jobConfig)
      = Returns report /\
    getRules Helpers cliEngine = rules.

(** The response computation of lines 62-79 for this request. *)
Definition responseOf (eslint : ESLint) : M Response :=
  respond Helpers (Job.type jobConfig) optionsOf (Job.contents jobConfig)
    eslint (Job.filePath jobConfig) fileDirOf (Job.config jobConfig)
    (Job.projectPath jobConfig).

(** The events every request starts with. *)
Definition prologue : list Event :=
  (if disableFSCache (Job.config jobConfig) then [FindCacheClear] else [])
  ++ [GetESLintInstance fileDirOf (Job.config jobConfig)
        (Job.projectPath jobConfig)].

End RequestFacts.

(** The [updatedRules] field of a response, when it has one. *)
Definition updatedRulesOf (response : Response)
  : option (list (string * RuleMeta)) :=
  match response with
  | LintResponse _ updated => updated
  | _ => None
  end.

(** The module state once the given requests have been served. *)
Definition stateAfter (requests : list (Collaborators * Job.t))
  (st : WorkerState) : WorkerState :=
  fold_left (fun s req => final (handle (fst req) (snd req) s)) requests st.

(** The state [lintJob] leaves when the engine reported [rules]. *)
Definition synced (Helpers : Collaborators) (rules : JsMap.t)
  (st : WorkerState) : WorkerState :=
  let changed := didRulesChange Helpers (rulesMetadata st) rules in
  mkState (if changed then rebuild (rulesMetadata st) rules
           else rulesMetadata st)
    changed.

Definition isConfigLookup (ev : Event) : bool :=
  match ev with GetConfigPath _ => true | _ => false end.

(** ** Concrete requests and collaborators used as examples *)

Module Fixtures.

Definition abs (segs : list string) : Path.t := Path.mk true segs.

Definition projectDir : Path.t := abs ["home"; "dev"; "project"].
Definition sourceFile : Path.t := abs ["home"; "dev"; "project"; "src"; "app.js"].
Definition homeConfig : Path.t := abs ["home"; "dev"; ".eslintrc"].
Definition projectConfig : Path.t := abs ["home"; "dev"; "project"; ".eslintrc"].

Definition config0 : Config :=
  mkConfig false (abs ["usr"; "local"]) None false false false.

(** [config0] with [disableWhenNoEslintConfig: true] and
    [disableFSCache: true]. *)
Definition skipConfig : Config :=
  mkConfig false (abs ["usr"; "local"]) None true false true.

Definition semiMissing : Diagnostic :=
  mkDiagnostic (Some "semi") 2 1 10 "Missing semicolon.".
Definition noVar : Diagnostic :=
  mkDiagnostic (Some "no-var") 1 1 1 "Unexpected var, use let or const instead.".

Definition emptyReport : Report := mkReport [].
Definition cleanReport : Report := mkReport [mkResult []].
Definition dirtyReport : Report :=
  mkReport [mkResult [semiMissing]; mkResult [noVar]].

Definition semiMeta : RuleMeta :=
  mkMeta 1 (JObj [("type", JStr "layout"); ("fixable", JStr "code")]).
Definition noVarMeta : RuleMeta :=
  mkMeta 2 (JObj [("type", JStr "suggestion"); ("schema", JArr [])]).

Definition rules1 : JsMap.t := [("semi", semiMeta); ("no-var", noVarMeta)].

(** The same rules in metadata objects built anew. *)
Definition rules1' : JsMap.t :=
  [("semi", mkMeta 7 (props semiMeta)); ("no-var", mkMeta 8 (props noVarMeta))].

(** [semi] with other metadata. *)
Definition rules2 : JsMap.t :=
  [("semi", mkMeta 1 (JObj [("type", JStr "layout")])); ("no-var", noVarMeta)].

(** An engine that reports [report] and defines [rules]. *)
Definition engineOf (report : Report) (rules : JsMap.t) : ESLint :=
  mkESLint (fun _ => Returns (mkEngine (fun _ _ => Returns report) rules))
    (fun _ => Returns tt).

(** Helpers that resolve to [located], find the configuration file
    [configPath], and use the registry's comparison. *)
Definition helpers (located : Exc ESLint) (configPath : option Path.t)
  : Collaborators :=
  mkCollaborators
    (fun _ _ _ => located)
    (fun _ => configPath)
    (fun _ filePath _ _ => Path.basename filePath)
    (fun type _ _ relativeFilePath _ _ =>
       JObj [("fix", JBool (String.eqb type "fix"));
             ("filename", JArr (map JStr (Path.segments relativeFilePath)))])
    RuleRegistry.getRules
    RuleRegistry.didRulesChange
    (fun _ _ _ =>
       Returns (Descriptor.mk (abs ["opt"; "eslint"]) "bundled fallback"))
    (fun p => Path.eqb p homeConfig)
    (fun _ _ => None).

Definition job (type : string) (config : Config) : Job.t :=
  Job.mk "var a = 1" type config sourceFile (Some projectDir) None "job-1".

(** A file system with engines at the given directories and the given
    files. *)
Definition disk (engines files : list Path.t) : FileSystem :=
  mkFS (fun p => if existsb (Path.eqb p) engines
                 then Some (engineOf cleanReport rules1) else None)
    (fun p => existsb (Path.eqb p) files).

Definition linux : Installation :=
  mkInstallation "linux" (abs ["opt"; "linter-eslint"; "node_modules"; "eslint"])
    (engineOf emptyReport []).

Definition windows : Installation :=
  mkInstallation "win32" (abs ["opt"; "linter-eslint"; "node_modules"; "eslint"])
    (engineOf emptyReport []).

(** The directories of the helper tests. *)
Definition fixtures (name : string) : Path.t :=
  abs ["pkg"; "spec"; "fixtures"; name].

Definition packaged : Installation :=
  mkInstallation "linux" (abs ["pkg"; "node_modules"; "eslint"])
    (engineOf emptyReport []).

(** The fixture tree of the helper tests: a local engine, a global one, the package's
    ignore file. *)
Definition tree : FileSystem :=
  disk
    [Path.sub (fixtures "local-eslint") ["node_modules"; "eslint"];
     Path.sub (fixtures "global-eslint") ["lib"; "node_modules"; "eslint"];
     Path.sub (fixtures "indirect-local-eslint")
       ["testing"; "eslint"; "node_modules"; "eslint"]]
    [abs ["pkg"; ".eslintignore"]].

Definition only (useGlobal : bool) (globalPath : Path.t)
  (advanced : option Path.t) (noIgnore : bool) : Config :=
  mkConfig useGlobal globalPath advanced false noIgnore false.

End Fixtures.

(** ** The helper tests' own definitions *)

Module WorkerHelpersSpec.

(** [const getFixturesPath = path => Path.join(__dirname, 'fixtures', path)] *)
Definition getFixturesPath (dirname path : Path.t) : Path.t :=
  Path.join (Path.sub dirname ["fixtures"]) path.

(** [const globalNodePath = process.platform === 'win32' ?
    Path.join(getFixturesPath('global-eslint'), 'lib') :
    getFixturesPath('global-eslint')] *)
Definition globalNodePath (platform : string) (dirname : Path.t) : Path.t :=
  if String.eqb platform "win32"
  then Path.sub (getFixturesPath dirname (Path.mk false ["global-eslint"]))
         ["lib"]
  else getFixturesPath dirname (Path.mk false ["global-eslint"]).

(** [expectedEslintPath] of the test 'finds a global eslint when
    useGlobalEslint is true and a valid globalNodePath is provided'. *)
Definition expectedEslintPath (platform : string) (dirname : Path.t) : Path.t :=
  if String.eqb platform "win32"
  then Path.sub (globalNodePath platform dirname) ["node_modules"; "eslint"]
  else Path.sub (globalNodePath platform dirname)
         ["lib"; "node_modules"; "eslint"].

End WorkerHelpersSpec.

(** ** The [Map] model *)

Lemma set_fresh (m : JsMap.t) (k : string) (v : RuleMeta) :
  ~ In k (JsMap.keys m) -> JsMap.set m k v = m ++ [(k, v)].
Proof.
  induction m as [|[k' v'] m IH]; simpl; intros Hk; [reflexivity|].
  destruct (String.eqb_spec k' k) as [->|Hne].
  - exfalso; apply Hk; now left.
  - rewrite IH; [reflexivity|]. intros Hin; apply Hk; now right.
Qed.

Lemma forEach_set_app (rules acc : JsMap.t) :
  NoDup (JsMap.keys (acc ++ rules)) ->
  JsMap.forEach rules (fun properties rule a => JsMap.set a rule properties) acc
  = acc ++ rules.
Proof.
  unfold JsMap.forEach.
  revert acc; induction rules as [|[k v] rules IH]; intros acc Hnd; simpl.
  - now rewrite app_nil_r.
  - assert (Hfresh : ~ In k (JsMap.keys acc)).
    { unfold JsMap.keys in *. rewrite map_app in Hnd. simpl in Hnd.
      apply NoDup_remove_2 in Hnd. intros Hin; apply Hnd.
      apply in_or_app; now left. }
    rewrite (set_fresh acc k v Hfresh).
    rewrite IH; rewrite <- app_assoc; simpl; [reflexivity | exact Hnd].
Qed.

(** Rebuilding from a [Map] gives that [Map], entry for entry, whatever
    was stored before. *)
Lemma rebuild_wf (old rules : JsMap.t) :
  JsMap.wf rules -> rebuild old rules = rules.
Proof.
  intros Hwf. unfold rebuild, JsMap.clear, JsMap.empty.
  now rewrite forEach_set_app.
Qed.

Lemma rebuild_forgets (old old' rules : JsMap.t) :
  rebuild old rules = rebuild old' rules.
Proof. reflexivity. Qed.

Lemma exportRules_entries (m : JsMap.t) : exportRules m = m.
Proof.
  unfold exportRules, JsMap.forEach.
  assert (H : forall acc : list (string * RuleMeta),
             fold_left (fun a kv => a ++ [(fst kv, snd kv)]) m acc = acc ++ m).
  { induction m as [|[k v] m IH]; intros acc; simpl.
    - now rewrite app_nil_r.
    - rewrite IH, <- app_assoc. reflexivity. }
  apply (H []).
Qed.

(** ** Runs of [lintJob] and [fixJob] *)

Section JobRuns.

Variable Helpers : Collaborators.
Variables (options : CLIEngineOptions) (contents : string) (eslint : ESLint)
  (filePath : Path.t) (st : WorkerState).

Lemma lintJob_no_engine (e : Error) :
  newCLIEngine eslint options = Throws e ->
  lintJob Helpers options contents eslint filePath st = mkRun st [] (Throws e).
Proof.
  intros Hnew. unfold lintJob, bind, lift. simpl. rewrite Hnew. reflexivity.
Qed.

Lemma lintJob_engine_throws (cliEngine : CLIEngine) (e : Error) :
  newCLIEngine eslint options = Returns cliEngine ->
  executeOnText cliEngine contents filePath = Throws e ->
  lintJob Helpers options contents eslint filePath st
  = mkRun st [ExecuteOnText options contents filePath] (Throws e).
Proof.
  intros Hnew Hexec. unfold lintJob, bind, call, lift. simpl.
  rewrite Hnew. simpl. rewrite Hexec. reflexivity.
Qed.

Lemma lintJob_returns (cliEngine : CLIEngine) (report : Report) :
  newCLIEngine eslint options = Returns cliEngine ->
  executeOnText cliEngine contents filePath = Returns report ->
  lintJob Helpers options contents eslint filePath st
  = mkRun (synced Helpers (getRules Helpers cliEngine) st)
      [ExecuteOnText options contents filePath] (Returns report).
Proof.
  intros Hnew Hexec.
  unfold lintJob, syncRules, synced, bind, call, lift, getState, putState, ret.
  simpl. rewrite Hnew. simpl. rewrite Hexec. simpl.
  destruct (didRulesChange Helpers (rulesMetadata st)
              (getRules Helpers cliEngine)); reflexivity.
Qed.

(** Whatever happens, [lintJob] returns only what the engine reported. *)
Lemma lintJob_outcome (report : Report) :
  outcome (lintJob Helpers options contents eslint filePath st)
  = Returns report ->
  exists cliEngine,
    newCLIEngine eslint options = Returns cliEngine /\
    executeOnText cliEngine contents filePath = Returns report.
Proof.
  destruct (newCLIEngine eslint options) as [e|cliEngine] eqn:Hnew.
  - rewrite (lintJob_no_engine e Hnew). discriminate.
  - destruct (executeOnText cliEngine contents filePath) as [e|r] eqn:Hexec.
    + rewrite (lintJob_engine_throws cliEngine e Hnew Hexec). discriminate.
    + rewrite (lintJob_returns cliEngine r Hnew Hexec). simpl.
      intros [= ->]. now exists cliEngine.
Qed.

Lemma fixJob_returns (cliEngine : CLIEngine) (report : Report) :
  newCLIEngine eslint options = Returns cliEngine ->
  executeOnText cliEngine contents filePath = Returns report ->
  outputFixes eslint report = Returns tt ->
  fixJob Helpers options contents eslint filePath st
  = mkRun (synced Helpers (getRules Helpers cliEngine) st)
      [ExecuteOnText options contents filePath; OutputFixes report]
      (Returns (if nothingLeft report then fixComplete else fixIncomplete)).
Proof.
  intros Hnew Hexec Hfix. unfold fixJob, bind at 1.
  rewrite (lintJob_returns cliEngine report Hnew Hexec). simpl.
  unfold bind, call, ret. simpl. rewrite Hfix. simpl.
  destruct (nothingLeft report); reflexivity.
Qed.

Lemma fixJob_outcome (status : string) :
  outcome (fixJob Helpers options contents eslint filePath st)
  = Returns status ->
  exists report,
    outcome (lintJob Helpers options contents eslint filePath st)
    = Returns report /\
    status = (if nothingLeft report then fixComplete else fixIncomplete).
Proof.
  unfold fixJob, bind at 1.
  destruct (outcome (lintJob Helpers options contents eslint filePath st))
    as [e|report] eqn:Hlint; simpl; [discriminate|].
  unfold bind, call, ret. simpl.
  destruct (outputFixes eslint report) as [e|u]; simpl; [discriminate|].
  intros Hstatus. exists report. split; [reflexivity|].
  destruct (nothingLeft report); simpl in Hstatus; now injection Hstatus.
Qed.

End JobRuns.

Lemma nothingLeft_spec (report : Report) :
  nothingLeft report = true <->
  results report = [] \/
  exists first rest, results report = first :: rest /\ messages first = [].
Proof.
  unfold nothingLeft. destruct (results report) as [|first rest].
  - split; [now left | reflexivity].
  - destruct (messages first) as [|d ds] eqn:Hm; split.
    + intros _. right. now exists first, rest.
    + reflexivity.
    + discriminate.
    + intros [Hnil | (f & r & [= <- <-] & Hnone)]; [discriminate|].
      rewrite Hm in Hnone. discriminate.
Qed.

Lemma fix_statuses_differ : fixComplete <> fixIncomplete.
Proof. discriminate. Qed.

(** ** Runs of the message handler *)

Section HandlerRuns.

Variable Helpers : Collaborators.
Variables (jobConfig : Job.t) (st : WorkerState).

Lemma handle_resolution_throws (e : Error) :
  resolved Helpers jobConfig = Throws e ->
  handle Helpers jobConfig st
  = mkRun st (prologue jobConfig) (Throws e).
Proof.
  unfold resolved, fileDirOf, prologue, handle, bind, call, ret. intros Hres.
  destruct (disableFSCache (Job.config jobConfig)); simpl;
    rewrite Hres; reflexivity.
Qed.

Lemma handle_skips (eslint : ESLint) :
  resolved Helpers jobConfig = Returns eslint ->
  skips Helpers jobConfig = true ->
  handle Helpers jobConfig st
  = mkRun st
      (prologue jobConfig
       ++ [GetConfigPath (fileDirOf jobConfig);
           Emit (Job.emitKey jobConfig) (LintResponse [] None)])
      (Returns tt).
Proof.
  unfold resolved, skips, noProjectConfig, fileDirOf, prologue, handle.
  intros Hres Hskip. unfold bind, call, ret, emit.
  destruct (disableFSCache (Job.config jobConfig)); simpl;
    rewrite Hres; simpl; rewrite Hskip; reflexivity.
Qed.

(** Past the skip test the handler emits what [respond] returns, and
    nothing when [respond] throws. *)
Lemma handle_executing (eslint : ESLint) :
  resolved Helpers jobConfig = Returns eslint ->
  skips Helpers jobConfig = false ->
  handle Helpers jobConfig st
  = let r := responseOf Helpers jobConfig eslint st in
    match outcome r with
    | Throws e =>
        mkRun (final r)
          (prologue jobConfig ++ GetConfigPath (fileDirOf jobConfig) :: trace r)
          (Throws e)
    | Returns response =>
        mkRun (final r)
          (prologue jobConfig
           ++ GetConfigPath (fileDirOf jobConfig)
              :: trace r ++ [Emit (Job.emitKey jobConfig) response])
          (Returns tt)
    end.
Proof.
  unfold resolved, skips, noProjectConfig, responseOf, optionsOf, fileDirOf,
    prologue, handle.
  intros Hres Hskip. unfold bind, call, ret, emit.
  destruct (disableFSCache (Job.config jobConfig)); cbn -[respond];
    rewrite Hres; cbn -[respond]; rewrite Hskip;
    match goal with
    | |- context [outcome ?r] => destruct (outcome r); reflexivity
    end.
Qed.

Lemma respond_lint (eslint : ESLint) :
  Job.type jobConfig = "lint" ->
  responseOf Helpers jobConfig eslint st
  = let r := lintJob Helpers (optionsOf Helpers jobConfig)
               (Job.contents jobConfig) eslint (Job.filePath jobConfig) st in
    mkRun (final r) (trace r)
      match outcome r with
      | Throws e => Throws e
      | Returns report =>
          Returns (LintResponse (firstMessages report)
                     (if sendRules (final r)
                      then Some (exportRules (rulesMetadata (final r)))
                      else None))
      end.
Proof.
  intros Htype. unfold responseOf, respond. rewrite Htype. cbn -[lintJob].
  unfold bind, getState, ret.
  destruct (lintJob _ _ _ _ _ _) as [st' tr [e|report]]; cbn;
    [reflexivity | now rewrite !app_nil_r].
Qed.

Lemma respond_fix (eslint : ESLint) :
  Job.type jobConfig = "fix" ->
  responseOf Helpers jobConfig eslint st
  = let r := fixJob Helpers (optionsOf Helpers jobConfig)
               (Job.contents jobConfig) eslint (Job.filePath jobConfig) st in
    mkRun (final r) (trace r)
      match outcome r with
      | Throws e => Throws e
      | Returns status => Returns (FixResponse status)
      end.
Proof.
  intros Htype. unfold responseOf, respond. rewrite Htype. cbn -[fixJob].
  unfold bind, ret.
  destruct (fixJob _ _ _ _ _ _) as [st' tr [e|status]]; cbn;
    [reflexivity | now rewrite app_nil_r].
Qed.

(** A request of another type leaves the engine and the state alone. *)
Lemma respond_other (eslint : ESLint) :
  Job.type jobConfig <> "lint" ->
  Job.type jobConfig <> "fix" ->
  let r := responseOf Helpers jobConfig eslint st in
  final r = st /\
  filter isExecution (trace r) = [] /\
  forall response, outcome r = Returns response ->
                   updatedRulesOf response = None.
Proof.
  intros Hlint Hfix. unfold responseOf, respond.
  destruct (String.eqb_spec (Job.type jobConfig) "lint"); [contradiction|].
  destruct (String.eqb_spec (Job.type jobConfig) "fix"); [contradiction|].
  destruct (String.eqb (Job.type jobConfig) "debug").
  - unfold bind, call, ret. cbn.
    destruct (findESLintDirectory Helpers _ _ _) as [e|found]; cbn;
      repeat split; try discriminate.
    now intros response [= <-].
  - cbn. repeat split. now intros response [= <-].
Qed.

End HandlerRuns.

Lemma emitted_trace {A : Type} (r : Run A) : emitted r = emitsOf (trace r).
Proof. reflexivity. Qed.

Lemma emitsOf_app (tr tr' : list Event) :
  emitsOf (tr ++ tr') = emitsOf tr ++ emitsOf tr'.
Proof. apply flat_map_app. Qed.

Lemma emitsOf_prologue (jobConfig : Job.t) : emitsOf (prologue jobConfig) = [].
Proof.
  unfold prologue. now destruct (disableFSCache (Job.config jobConfig)).
Qed.

Lemma executions_prologue (jobConfig : Job.t) :
  filter isExecution (prologue jobConfig) = [].
Proof.
  unfold prologue. now destruct (disableFSCache (Job.config jobConfig)).
Qed.

Lemma lookups_prologue (jobConfig : Job.t) :
  filter isConfigLookup (prologue jobConfig) = [].
Proof.
  unfold prologue. now destruct (disableFSCache (Job.config jobConfig)).
Qed.

Section HandlerJobs.

Variable Helpers : Collaborators.
Variables (jobConfig : Job.t) (st : WorkerState).

Lemma handle_lint (eslint : ESLint) (report : Report) (rules : JsMap.t) :
  Job.type jobConfig = "lint" ->
  engineRan Helpers jobConfig eslint report rules ->
  handle Helpers jobConfig st
  = mkRun (synced Helpers rules st)
      (prologue jobConfig
       ++ [GetConfigPath (fileDirOf jobConfig);
           ExecuteOnText (optionsOf Helpers jobConfig)
             (Job.contents jobConfig) (Job.filePath jobConfig);
           Emit (Job.emitKey jobConfig)
             (LintResponse (firstMessages report)
                (if didRulesChange Helpers (rulesMetadata st) rules
                 then Some (exportRules (rebuild (rulesMetadata st) rules))
                 else None))])
      (Returns tt).
Proof.
  intros Htype (Hres & Hskip & cliEngine & Hnew & Hexec & Hrules).
  rewrite (handle_executing _ _ _ eslint Hres Hskip).
  rewrite (respond_lint _ _ _ eslint Htype).
  rewrite (lintJob_returns _ _ _ _ _ _ cliEngine report Hnew Hexec).
  rewrite Hrules. unfold synced. cbn.
  destruct (didRulesChange Helpers (rulesMetadata st) rules); reflexivity.
Qed.

Lemma handle_fix (eslint : ESLint) (report : Report) (rules : JsMap.t) :
  Job.type jobConfig = "fix" ->
  engineRan Helpers jobConfig eslint report rules ->
  outputFixes eslint report = Returns tt ->
  handle Helpers jobConfig st
  = mkRun (synced Helpers rules st)
      (prologue jobConfig
       ++ [GetConfigPath (fileDirOf jobConfig);
           ExecuteOnText (optionsOf Helpers jobConfig)
             (Job.contents jobConfig) (Job.filePath jobConfig);
           OutputFixes report;
           Emit (Job.emitKey jobConfig)
             (FixResponse
                (if nothingLeft report then fixComplete else fixIncomplete))])
      (Returns tt).
Proof.
  intros Htype (Hres & Hskip & cliEngine & Hnew & Hexec & Hrules) Hfix.
  rewrite (handle_executing _ _ _ eslint Hres Hskip).
  rewrite (respond_fix _ _ _ eslint Htype).
  rewrite (fixJob_returns _ _ _ _ _ _ cliEngine report Hnew Hexec Hfix).
  rewrite Hrules. reflexivity.
Qed.

(** The state after [lintJob], whatever the engine did: untouched, or
    synchronised with the rules of an engine that returned. *)
Lemma lintJob_final (options : CLIEngineOptions) (contents : string)
  (eslint : ESLint) (filePath : Path.t) :
  let r := lintJob Helpers options contents eslint filePath st in
  (final r = st /\ exists e, outcome r = Throws e) \/
  exists cliEngine report,
    newCLIEngine eslint options = Returns cliEngine /\
    executeOnText cliEngine contents filePath = Returns report /\
    r = mkRun (synced Helpers (getRules Helpers cliEngine) st)
          [ExecuteOnText options contents filePath] (Returns report).
Proof.
  destruct (newCLIEngine eslint options) as [e|cliEngine] eqn:Hnew.
  - left. rewrite (lintJob_no_engine _ _ _ _ _ _ e Hnew). cbn. eauto.
  - destruct (executeOnText cliEngine contents filePath) as [e|report] eqn:Hexec.
    + left. rewrite (lintJob_engine_throws _ _ _ _ _ _ cliEngine e Hnew Hexec).
      cbn. eauto.
    + right. exists cliEngine, report.
      now rewrite (lintJob_returns _ _ _ _ _ _ cliEngine report Hnew Hexec).
Qed.

Lemma fixJob_run (options : CLIEngineOptions) (contents : string)
  (eslint : ESLint) (filePath : Path.t) :
  fixJob Helpers options contents eslint filePath st
  = let r := lintJob Helpers options contents eslint filePath st in
    match outcome r with
    | Throws e => mkRun (final r) (trace r) (Throws e)
    | Returns report =>
        mkRun (final r) (trace r ++ [OutputFixes report])
          match outputFixes eslint report with
          | Throws e => Throws e
          | Returns _ =>
              Returns (if nothingLeft report then fixComplete
                       else fixIncomplete)
          end
    end.
Proof.
  unfold fixJob, bind at 1. cbv zeta.
  destruct (outcome (lintJob Helpers options contents eslint filePath st))
    as [e|report]; [reflexivity|].
  unfold bind, call, ret. cbn.
  destruct (outputFixes eslint report); cbn; [reflexivity|].
  destruct (nothingLeft report); cbn; rewrite ?app_nil_r; reflexivity.
Qed.

Lemma fixJob_final (options : CLIEngineOptions) (contents : string)
  (eslint : ESLint) (filePath : Path.t) :
  let r := fixJob Helpers options contents eslint filePath st in
  (final r = st /\ exists e, outcome r = Throws e) \/
  exists cliEngine report,
    newCLIEngine eslint options = Returns cliEngine /\
    executeOnText cliEngine contents filePath = Returns report /\
    final r = synced Helpers (getRules Helpers cliEngine) st.
Proof.
  cbv zeta. rewrite fixJob_run. cbv zeta.
  destruct (lintJob_final options contents eslint filePath)
    as [[Hst [e He]] | (cliEngine & report & Hnew & Hexec & Hrun)].
  - left. rewrite He. cbn. split; [exact Hst | eauto].
  - right. exists cliEngine, report. repeat split; try assumption.
    rewrite Hrun. reflexivity.
Qed.

(** The snapshot after any request: the state is untouched, or it is the
    one [lintJob] leaves for the rules of an engine that ran. *)
Lemma handle_final :
  final (handle Helpers jobConfig st) = st \/
  exists eslint report rules,
    engineRan Helpers jobConfig eslint report rules /\
    final (handle Helpers jobConfig st) = synced Helpers rules st.
Proof.
  destruct (resolved Helpers jobConfig) as [e|eslint] eqn:Hres.
  { left. now rewrite (handle_resolution_throws _ _ _ e Hres). }
  destruct (skips Helpers jobConfig) eqn:Hskip.
  { left. now rewrite (handle_skips _ _ _ eslint Hres Hskip). }
  rewrite (handle_executing _ _ _ eslint Hres Hskip). cbv zeta.
  assert (Hfinal : forall r : Run Response,
            final match outcome r with
                  | Throws e =>
                      mkRun (final r)
                        (prologue jobConfig
                         ++ GetConfigPath (fileDirOf jobConfig) :: trace r)
                        (Throws e)
                  | Returns response =>
                      mkRun (final r)
                        (prologue jobConfig
                         ++ GetConfigPath (fileDirOf jobConfig)
                            :: trace r
                               ++ [Emit (Job.emitKey jobConfig) response])
                        (Returns tt)
                  end = final r).
  { intros r. now destruct (outcome r). }
  rewrite Hfinal. clear Hfinal.
  destruct (string_dec (Job.type jobConfig) "lint") as [Hlint|Hlint].
  - rewrite (respond_lint _ _ _ eslint Hlint). cbn.
    destruct (lintJob_final (optionsOf Helpers jobConfig)
                (Job.contents jobConfig) eslint (Job.filePath jobConfig))
      as [[Hst _] | (cliEngine & report & Hnew & Hexec & Hrun)].
    + now left.
    + right. exists eslint, report, (getRules Helpers cliEngine).
      split; [| now rewrite Hrun].
      repeat split; try assumption. now exists cliEngine.
  - destruct (string_dec (Job.type jobConfig) "fix") as [Hfix|Hfix].
    + rewrite (respond_fix _ _ _ eslint Hfix). cbn.
      destruct (fixJob_final (optionsOf Helpers jobConfig)
                  (Job.contents jobConfig) eslint (Job.filePath jobConfig))
        as [[Hst _] | (cliEngine & report & Hnew & Hexec & Hrun)].
      * now left.
      * right. exists eslint, report, (getRules Helpers cliEngine).
        split; [| exact Hrun].
        repeat split; try assumption. now exists cliEngine.
    + left. apply (respond_other Helpers jobConfig st eslint Hlint Hfix).
Qed.

End HandlerJobs.

(** ** What a request emits *)

Section HandlerEmits.

Variable Helpers : Collaborators.
Variables (jobConfig : Job.t) (st : WorkerState).

Lemma lintJob_no_emit (options : CLIEngineOptions) (contents : string)
  (eslint : ESLint) (filePath : Path.t) :
  emitsOf (trace (lintJob Helpers options contents eslint filePath st)) = [].
Proof.
  destruct (lintJob_final Helpers st options contents eslint filePath)
    as [[_ [e He]] | (cliEngine & report & Hnew & Hexec & Hrun)].
  - destruct (newCLIEngine eslint options) as [e'|cliEngine] eqn:Hnew.
    + now rewrite (lintJob_no_engine _ _ _ _ _ _ e' Hnew).
    + destruct (executeOnText cliEngine contents filePath) as [e'|report]
        eqn:Hexec.
      * now rewrite (lintJob_engine_throws _ _ _ _ _ _ cliEngine e' Hnew Hexec).
      * now rewrite (lintJob_returns _ _ _ _ _ _ cliEngine report Hnew Hexec).
  - now rewrite Hrun.
Qed.

Lemma fixJob_no_emit (options : CLIEngineOptions) (contents : string)
  (eslint : ESLint) (filePath : Path.t) :
  emitsOf (trace (fixJob Helpers options contents eslint filePath st)) = [].
Proof.
  rewrite fixJob_run. cbv zeta.
  pose proof (lintJob_no_emit options contents eslint filePath) as Hlint.
  destruct (outcome (lintJob Helpers options contents eslint filePath st));
    cbn; [exact Hlint|].
  rewrite emitsOf_app, Hlint. reflexivity.
Qed.

Lemma respond_no_emit (eslint : ESLint) :
  emitsOf (trace (responseOf Helpers jobConfig eslint st)) = [].
Proof.
  destruct (string_dec (Job.type jobConfig) "lint") as [Hlint|Hlint].
  { rewrite (respond_lint _ _ _ eslint Hlint). apply lintJob_no_emit. }
  destruct (string_dec (Job.type jobConfig) "fix") as [Hfix|Hfix].
  { rewrite (respond_fix _ _ _ eslint Hfix). apply fixJob_no_emit. }
  unfold responseOf, respond.
  destruct (String.eqb_spec (Job.type jobConfig) "lint"); [contradiction|].
  destruct (String.eqb_spec (Job.type jobConfig) "fix"); [contradiction|].
  destruct (String.eqb (Job.type jobConfig) "debug"); [|reflexivity].
  unfold bind, call, ret. cbn.
  now destruct (findESLintDirectory Helpers _ _ _).
Qed.

(** Past the skip test: one response when [respond] returns, none when it
    throws. *)
Lemma handle_executing_emitted (eslint : ESLint) :
  resolved Helpers jobConfig = Returns eslint ->
  skips Helpers jobConfig = false ->
  emitted (handle Helpers jobConfig st)
  = match outcome (responseOf Helpers jobConfig eslint st) with
    | Throws _ => []
    | Returns response => [(Job.emitKey jobConfig, response)]
    end.
Proof.
  intros Hres Hskip. rewrite (handle_executing _ _ _ eslint Hres Hskip).
  cbv zeta. pose proof (respond_no_emit eslint) as Hnone.
  destruct (outcome (responseOf Helpers jobConfig eslint st));
    rewrite emitted_trace; cbn [trace];
    rewrite emitsOf_app, emitsOf_prologue; cbn.
  - exact Hnone.
  - rewrite emitsOf_app, Hnone. reflexivity.
Qed.

(** A response carries [updatedRules] only as the answer to a lint request
    whose engine ran and whose rules differ from the snapshot; it then
    carries the rebuilt snapshot. *)
Lemma handle_updates (key : string) (response : Response)
  (updated : list (string * RuleMeta)) :
  In (key, response) (emitted (handle Helpers jobConfig st)) ->
  updatedRulesOf response = Some updated ->
  Job.type jobConfig = "lint" /\
  exists eslint report rules,
    engineRan Helpers jobConfig eslint report rules /\
    didRulesChange Helpers (rulesMetadata st) rules = true /\
    updated = exportRules (rebuild (rulesMetadata st) rules).
Proof.
  intros Hin Hupd.
  destruct (resolved Helpers jobConfig) as [e|eslint] eqn:Hres.
  { rewrite (handle_resolution_throws _ _ _ e Hres), emitted_trace in Hin.
    cbn [trace] in Hin. rewrite emitsOf_prologue in Hin. destruct Hin. }
  destruct (skips Helpers jobConfig) eqn:Hskip.
  { rewrite (handle_skips _ _ _ eslint Hres Hskip), emitted_trace in Hin.
    cbn [trace] in Hin. rewrite emitsOf_app, emitsOf_prologue in Hin.
    cbn in Hin. destruct Hin as [[= <- <-]|[]]. discriminate. }
  rewrite (handle_executing_emitted eslint Hres Hskip) in Hin.
  destruct (string_dec (Job.type jobConfig) "lint") as [Hlint|Hlint].
  - split; [exact Hlint|].
    rewrite (respond_lint _ _ _ eslint Hlint) in Hin. cbv zeta in Hin.
    destruct (lintJob_final Helpers st (optionsOf Helpers jobConfig)
                (Job.contents jobConfig) eslint (Job.filePath jobConfig))
      as [[_ [e He]] | (cliEngine & report & Hnew & Hexec & Hrun)].
    + cbn in Hin. rewrite He in Hin. destruct Hin.
    + rewrite Hrun in Hin. cbn in Hin. destruct Hin as [[= <- <-]|[]].
      exists eslint, report, (getRules Helpers cliEngine).
      split; [repeat split; try assumption; now exists cliEngine|].
      cbn in Hupd.
      destruct (didRulesChange Helpers (rulesMetadata st)
                  (getRules Helpers cliEngine)); [|discriminate].
      split; [reflexivity | now injection Hupd].
  - exfalso.
    destruct (string_dec (Job.type jobConfig) "fix") as [Hfix|Hfix].
    + rewrite (respond_fix _ _ _ eslint Hfix) in Hin. cbv zeta in Hin.
      cbn in Hin.
      destruct (outcome (fixJob Helpers _ _ _ _ st)); cbn in Hin;
        [destruct Hin|].
      destruct Hin as [[= <- <-]|[]]. discriminate.
    + destruct (respond_other Helpers jobConfig st eslint Hlint Hfix)
        as (_ & _ & Hnone).
      destruct (outcome (responseOf Helpers jobConfig eslint st))
        as [e|response'] eqn:Hout; [destruct Hin|].
      destruct Hin as [[= <- <-]|[]].
      rewrite (Hnone response' eq_refl) in Hupd. discriminate.
Qed.

End HandlerEmits.

(** ** Paths: ancestors and relative paths *)

Lemma prefixb_spec (a p : list string) :
  Path.prefixb a p = true <-> exists rest, p = a ++ rest.
Proof.
  revert p; induction a as [|x a IH]; intros p; simpl.
  - split; [intros _; now exists p | reflexivity].
  - destruct p as [|y p].
    + split; [discriminate | intros [rest Hrest]; discriminate].
    + rewrite andb_true_iff, IH, String.eqb_eq. split.
      * intros [-> [rest ->]]. now exists rest.
      * intros [rest [= -> ->]]. split; [reflexivity | now exists rest].
Qed.

Lemma in_ancestorsRev (d r : list string) :
  In d (Path.ancestorsRev r) <-> exists rest, rev r = d ++ rest.
Proof.
  induction r as [|x up IH]; simpl.
  - split.
    + intros [<-|[]]. now exists [].
    + intros [rest Hrest]. symmetry in Hrest.
      apply app_eq_nil in Hrest as [-> _]. now left.
  - split.
    + intros [<-|Hin].
      * exists []. now rewrite app_nil_r.
      * apply IH in Hin as [rest Hrest]. exists (rest ++ [x]).
        now rewrite Hrest, app_assoc.
    + intros [rest Hrest].
      destruct (rev rest) as [|y rrest] eqn:Hrev.
      * apply (f_equal (@rev string)) in Hrev. rewrite rev_involutive in Hrev.
        subst rest. rewrite app_nil_r in Hrest. now left.
      * right. apply IH. exists (rev rrest).
        apply (f_equal (@rev string)) in Hrev. rewrite rev_involutive in Hrev.
        simpl in Hrev. subst rest. rewrite app_assoc in Hrest.
        now apply app_inj_tail in Hrest as [Hrest _].
Qed.

(** The directories the upward walk visits are exactly the path itself
    and the directories above it. *)
Lemma in_ancestors (d p : Path.t) :
  In d (Path.ancestors p) <-> Path.isAncestor d p = true.
Proof.
  unfold Path.ancestors, Path.isAncestor.
  rewrite in_map_iff, andb_true_iff, prefixb_spec, Bool.eqb_true_iff.
  split.
  - intros (segs & <- & Hin). apply in_ancestorsRev in Hin.
    rewrite rev_involutive in Hin. now split.
  - intros [Habs Hpre]. exists (Path.segments d). split.
    + rewrite <- Habs. now destruct d.
    + apply in_ancestorsRev. now rewrite rev_involutive.
Qed.

Lemma strip_prefix (a rest : list string) : Path.strip a (a ++ rest) = ([], rest).
Proof.
  induction a as [|x a IH]; simpl.
  - now destruct rest.
  - now rewrite String.eqb_refl.
Qed.

(** Below an ancestor the relative path is what is left of the path, with
    no ['..']. *)
Lemma relative_below (a p : Path.t) :
  Path.isAncestor a p = true ->
  Path.segments p = Path.segments a ++ Path.segments (Path.relative a p).
Proof.
  unfold Path.isAncestor, Path.relative.
  rewrite andb_true_iff, prefixb_spec. intros [_ [rest Hrest]].
  rewrite Hrest, strip_prefix. reflexivity.
Qed.

(** ** The engine locator *)

Lemma nearest_none (fs : FileSystem) (dirs : list Path.t) :
  (forall dir, In dir dirs ->
     engineAt fs (Path.sub dir ["node_modules"; EngineLocator.engineName])
     = None) ->
  EngineLocator.nearest fs dirs = None.
Proof.
  induction dirs as [|dir above IH]; intros Hnone; simpl; [reflexivity|].
  rewrite (Hnone dir (or_introl eq_refl)).
  apply IH. intros d Hd. apply Hnone. now right.
Qed.

Lemma nearest_some (fs : FileSystem) (dirs : list Path.t) (found : Path.t)
  (m : ESLint) :
  EngineLocator.nearest fs dirs = Some (found, m) ->
  exists dir, In dir dirs /\
    found = Path.sub dir ["node_modules"; EngineLocator.engineName] /\
    engineAt fs found = Some m.
Proof.
  induction dirs as [|dir above IH]; simpl; [discriminate|].
  destruct (engineAt fs (Path.sub dir _)) as [m'|] eqn:Hat.
  - intros [= <- <-]. exists dir. auto.
  - intros Hfound. destruct (IH Hfound) as (d & Hd & Hrest).
    exists d. split; [now right | exact Hrest].
Qed.

Lemma findIgnore_some (fs : FileSystem) (dirs : list Path.t) (found : Path.t) :
  PathNormalizer.findIgnore fs dirs = Some found ->
  exists dir, In dir dirs /\
    found = Path.sub dir [PathNormalizer.ignoreName] /\
    fileAt fs found = true.
Proof.
  induction dirs as [|dir above IH]; simpl; [discriminate|].
  destruct (fileAt fs (Path.sub dir _)) eqn:Hat.
  - intros [= <-]. exists dir. auto.
  - intros Hfound. destruct (IH Hfound) as (d & Hd & Hrest).
    exists d. split; [now right | exact Hrest].
Qed.

Lemma dirname_sub (dir : Path.t) (name : string) :
  Path.dirname (Path.sub dir [name]) = dir.
Proof.
  unfold Path.dirname, Path.sub, Path.join. simpl.
  rewrite removelast_last. now destruct dir.
Qed.

(** ** The rule registry *)

Lemma deepEqual_refl : forall v : Json, deepEqual v v = true.
Proof.
  fix IH 1. intros [| b | n | s | items | fields]; simpl.
  - reflexivity.
  - apply Bool.eqb_reflx.
  - apply Z.eqb_refl.
  - apply String.eqb_refl.
  - induction items as [|x xs IHxs]; [reflexivity|].
    rewrite IH. exact IHxs.
  - induction fields as [|[k x] fs IHfs]; [reflexivity|].
    rewrite String.eqb_refl, IH. exact IHfs.
Qed.

Lemma sameValue_refl (v : RuleMeta) : sameValue v v = true.
Proof. apply deepEqual_refl. Qed.

Lemma get_in (m : JsMap.t) (k : string) (v : RuleMeta) :
  JsMap.get m k = Some v -> In (k, v) m.
Proof.
  induction m as [|[k' v'] m IH]; simpl; [discriminate|].
  destruct (String.eqb_spec k' k) as [->|Hne].
  - intros [= ->]. now left.
  - intros Hget. right. now apply IH.
Qed.

Lemma get_none (m : JsMap.t) (k : string) :
  JsMap.get m k = None <-> ~ In k (JsMap.keys m).
Proof.
  induction m as [|[k' v'] m IH]; simpl; [tauto|].
  destruct (String.eqb_spec k' k) as [->|Hne].
  - split; [discriminate | intros Hnot; exfalso; apply Hnot; now left].
  - rewrite IH. tauto.
Qed.

Lemma wf_get (m : JsMap.t) (k : string) (v : RuleMeta) :
  JsMap.wf m -> In (k, v) m -> JsMap.get m k = Some v.
Proof.
  unfold JsMap.wf, JsMap.keys.
  induction m as [|[k' v'] m IH]; simpl; intros Hnd Hin; [destruct Hin|].
  apply NoDup_cons_iff in Hnd as [Hfresh Hnd].
  destruct Hin as [[= -> ->]|Hin].
  - now rewrite String.eqb_refl.
  - destruct (String.eqb_spec k' k) as [->|Hne].
    + exfalso. apply Hfresh. now apply (in_map fst) in Hin.
    + now apply IH.
Qed.

(** The comparison says "unchanged" exactly when the sizes agree and
    every stored rule is current with metadata of the same value. *)
Lemma unchanged_spec (cur new : JsMap.t) :
  RuleRegistry.didRulesChange cur new = false <->
  JsMap.size cur = JsMap.size new /\
  forall k v, In (k, v) cur ->
    exists v', JsMap.get new k = Some v' /\ sameValue v v' = true.
Proof.
  unfold RuleRegistry.didRulesChange.
  rewrite negb_false_iff, andb_true_iff, Nat.eqb_eq, forallb_forall.
  split; intros [Hsize Hall]; (split; [exact Hsize|]).
  - intros k v Hin. specialize (Hall (k, v) Hin). simpl in Hall.
    destruct (JsMap.get new k) as [v'|]; [|discriminate]. now exists v'.
  - intros [k v] Hin. simpl. destruct (Hall k v Hin) as (v' & -> & Hsame).
    exact Hsame.
Qed.

Lemma unchanged_self (rules : JsMap.t) :
  JsMap.wf rules -> RuleRegistry.didRulesChange rules rules = false.
Proof.
  intros Hwf. apply unchanged_spec. split; [reflexivity|].
  intros k v Hin. exists v. split; [now apply wf_get | apply sameValue_refl].
Qed.

(** Added, removed or changed: any rule id at which the two maps differ
    makes the comparison say "changed". *)
Lemma changed_when_differ (cur new : JsMap.t) (rule : string) :
  JsMap.wf cur ->
  RuleRegistry.differAt cur new rule ->
  RuleRegistry.didRulesChange cur new = true.
Proof.
  intros Hwf Hdiff.
  destruct (RuleRegistry.didRulesChange cur new) eqn:Hchanged; [reflexivity|].
  exfalso. apply unchanged_spec in Hchanged as [Hsize Hall].
  unfold RuleRegistry.differAt in Hdiff.
  destruct (JsMap.get cur rule) as [x|] eqn:Hcur.
  - destruct (Hall rule x (get_in _ _ _ Hcur)) as (v' & Hnew & Hsame).
    rewrite Hnew in Hdiff. congruence.
  - destruct (JsMap.get new rule) as [y|] eqn:Hnew; [|exact Hdiff].
    apply get_none in Hcur. apply Hcur.
    assert (Hincl : incl (JsMap.keys cur) (JsMap.keys new)).
    { intros k Hk. unfold JsMap.keys in Hk. apply in_map_iff in Hk
        as ([k' v] & <- & Hin). destruct (Hall k' v Hin) as (v' & Hget & _).
      apply get_in in Hget. now apply (in_map fst) in Hget. }
    apply (@NoDup_length_incl _ (JsMap.keys cur) (JsMap.keys new) Hwf);
      [| exact Hincl |].
    + unfold JsMap.keys, JsMap.size in *. rewrite !length_map. lia.
    + apply get_in in Hnew. now apply (in_map fst) in Hnew.
Qed.

(** Metadata objects are compared by their contents: rule sets that agree
    rule by rule up to the identity of the objects are "unchanged". *)
Lemma unchanged_by_value (cur new : JsMap.t) :
  JsMap.wf new ->
  Forall2 (fun a b => fst a = fst b /\ sameValue (snd a) (snd b) = true)
    cur new ->
  RuleRegistry.didRulesChange cur new = false.
Proof.
  intros Hwf Hall. apply unchanged_spec. split.
  - exact (Forall2_length Hall).
  - intros k v Hin.
    assert (Hex : exists v', In (k, v') new /\ sameValue v v' = true).
    { clear Hwf. induction Hall as [|[k1 v1] [k2 v2] cur new [Hk Hv] Hall IH];
        [destruct Hin|]. simpl in Hk, Hv. subst k2.
      destruct Hin as [[= -> ->]|Hin].
      - exists v2. split; [now left | exact Hv].
      - destruct (IH Hin) as (v' & Hin' & Hsame). exists v'.
        split; [now right | exact Hsame]. }
    destruct Hex as (v' & Hin' & Hsame). exists v'.
    split; [now apply wf_get | exact Hsame].
Qed.

Lemma syncRules_run (Helpers : Collaborators) (rules : JsMap.t)
  (st : WorkerState) :
  syncRules Helpers rules st = mkRun (synced Helpers rules st) [] (Returns tt).
Proof.
  unfold syncRules, synced, bind, getState, putState, ret. cbn.
  destruct (didRulesChange Helpers (rulesMetadata st) rules); reflexivity.
Qed.

Lemma diff_run (Helpers : Collaborators) (current : JsMap.t)
  (st : WorkerState) :
  RuleRegistry.diff Helpers current st
  = (RuleRegistry.didRulesChange (rulesMetadata st) current,
     mkState (if RuleRegistry.didRulesChange (rulesMetadata st) current
              then rebuild (rulesMetadata st) current
              else rulesMetadata st)
       (RuleRegistry.didRulesChange (rulesMetadata st) current)).
Proof.
  unfold RuleRegistry.diff. rewrite syncRules_run. reflexivity.
Qed.

(** ** The dispatcher's skip *)

(** C1, as stated, fails: a request with no project configuration and
    [disableWhenNoEslintConfig] set whose engine resolution throws gets no
    response at all. *)
Lemma skip_unanswered_when_engine_missing :
  let Helpers := Fixtures.helpers (Throws EngineNotFoundError) None in
  let jobConfig := Fixtures.job "lint" Fixtures.skipConfig in
  getConfigPath Helpers (fileDirOf jobConfig) = None /\
  disableWhenNoEslintConfig (Job.config jobConfig) = true /\
  emitted (handle Helpers jobConfig initialState) = [] /\
  emitted (handle Helpers jobConfig initialState)
  <> [(Job.emitKey jobConfig, LintResponse [] None)].
Proof. repeat split. discriminate. Qed.

(** C1 (amended): when the engine resolution of a request returns, the
    project configuration lookup returns null or a configuration at the
    home root, and [config.disableWhenNoEslintConfig] is true, the handler
    emits exactly one response, [{messages: []}], under the request's
    [emitKey], returns, and makes no engine call ([executeOnText],
    [outputFixes]): after the resolution it only looks the configuration
    up and emits; the module state is untouched. *)
Theorem skip_responds_empty (Helpers : Collaborators) (jobConfig : Job.t)
  (st : WorkerState) (eslint : ESLint) :
  resolved Helpers jobConfig = Returns eslint ->
  (getConfigPath Helpers (fileDirOf jobConfig) = None \/
   exists p, getConfigPath Helpers (fileDirOf jobConfig) = Some p /\
             isConfigAtHomeRoot Helpers p = true) ->
  disableWhenNoEslintConfig (Job.config jobConfig) = true ->
  let r := handle Helpers jobConfig st in
  emitted r = [(Job.emitKey jobConfig, LintResponse [] None)] /\
  executions r = [] /\
  trace r
  = prologue jobConfig
    ++ [GetConfigPath (fileDirOf jobConfig);
        Emit (Job.emitKey jobConfig) (LintResponse [] None)] /\
  outcome r = Returns tt /\
  final r = st.
Proof.
  intros Hres Hnone Hdisable.
  assert (Hskip : skips Helpers jobConfig = true).
  { unfold skips, noProjectConfig. rewrite Hdisable.
    destruct Hnone as [-> | (p & -> & ->)]; reflexivity. }
  cbv zeta. rewrite (handle_skips _ _ _ eslint Hres Hskip).
  unfold executions. rewrite emitted_trace. cbn [trace outcome final].
  rewrite emitsOf_app, emitsOf_prologue, filter_app, executions_prologue.
  repeat split.
Qed.

Lemma skip_responds_empty_witness :
  let Helpers :=
    Fixtures.helpers (Returns (Fixtures.engineOf Fixtures.dirtyReport
                                 Fixtures.rules1))
      (Some Fixtures.homeConfig) in
  let jobConfig := Fixtures.job "lint" Fixtures.skipConfig in
  let r := handle Helpers jobConfig initialState in
  emitted r = [("job-1", LintResponse [] None)] /\
  executions r = [] /\
  trace r
  = [FindCacheClear;
     GetESLintInstance (Path.dirname Fixtures.sourceFile) Fixtures.skipConfig
       (Some Fixtures.projectDir);
     GetConfigPath (Path.dirname Fixtures.sourceFile);
     Emit "job-1" (LintResponse [] None)] /\
  outcome r = Returns tt /\
  final r = initialState.
Proof.
  apply (skip_responds_empty
           (Fixtures.helpers (Returns (Fixtures.engineOf Fixtures.dirtyReport
                                         Fixtures.rules1))
              (Some Fixtures.homeConfig))
           (Fixtures.job "lint" Fixtures.skipConfig) initialState
           (Fixtures.engineOf Fixtures.dirtyReport Fixtures.rules1)).
  - reflexivity.
  - right. exists Fixtures.homeConfig. split; reflexivity.
  - reflexivity.
Defined.

(** C10: every request starts (after the optional cache clear) with the
    engine resolution, and looks the configuration up only once that
    returned; when the resolution throws, whether or not the request
    satisfies the skip condition, the handler stops there: the exception
    leaves the handler, no configuration lookup is made and nothing is
    emitted, not even the empty message list. *)
Theorem resolution_precedes_config_check (Helpers : Collaborators)
  (jobConfig : Job.t) (st : WorkerState) :
  let r := handle Helpers jobConfig st in
  exists rest,
    trace r
    = (if disableFSCache (Job.config jobConfig) then [FindCacheClear] else [])
      ++ GetESLintInstance (fileDirOf jobConfig) (Job.config jobConfig)
           (Job.projectPath jobConfig)
         :: rest /\
    (forall eslint, resolved Helpers jobConfig = Returns eslint ->
       exists rest', rest = GetConfigPath (fileDirOf jobConfig) :: rest') /\
    (forall e, resolved Helpers jobConfig = Throws e ->
       rest = [] /\
       outcome r = Throws e /\
       emitted r = [] /\
       filter isConfigLookup (trace r) = [] /\
       final r = st).
Proof.
  cbv zeta.
  destruct (resolved Helpers jobConfig) as [e|eslint] eqn:Hres.
  - rewrite (handle_resolution_throws _ _ _ e Hres). exists [].
    split; [reflexivity|]. split; [discriminate|].
    intros e' [= <-]. rewrite emitted_trace. cbn [trace outcome final].
    rewrite emitsOf_prologue, lookups_prologue. repeat split.
  - destruct (skips Helpers jobConfig) eqn:Hskip.
    + rewrite (handle_skips _ _ _ eslint Hres Hskip). cbn [trace].
      unfold prologue. rewrite <- app_assoc. cbn [app].
      eexists. split; [reflexivity|]. split; [|discriminate].
      intros _ _. eexists. reflexivity.
    + rewrite (handle_executing _ _ _ eslint Hres Hskip). cbv zeta.
      destruct (outcome (responseOf Helpers jobConfig eslint st));
        cbn [trace]; unfold prologue; rewrite <- app_assoc; cbn [app];
        (eexists; split; [reflexivity|]; split; [|discriminate]);
        intros _ _; eexists; reflexivity.
Qed.

Lemma resolution_precedes_config_check_witness :
  let Helpers := Fixtures.helpers (Throws EngineNotFoundError) None in
  let jobConfig := Fixtures.job "lint" Fixtures.skipConfig in
  skips Helpers jobConfig = true /\
  outcome (handle Helpers jobConfig initialState) = Throws EngineNotFoundError /\
  emitted (handle Helpers jobConfig initialState) = [].
Proof.
  cbv zeta. split; [reflexivity|].
  destruct (resolution_precedes_config_check
              (Fixtures.helpers (Throws EngineNotFoundError) None)
              (Fixtures.job "lint" Fixtures.skipConfig) initialState)
    as (rest & _ & _ & Hthrows).
  destruct (Hthrows EngineNotFoundError eq_refl) as (_ & Hout & Hemit & _).
  split; [exact Hout | exact Hemit].
Defined.

(** ** The job runner *)

(** C3: [fixJob] returns nothing but one of its two status strings; when
    the engine is built, runs and writes its fixes, [fixJob] does return,
    and the string is the success one exactly when the report has no
    result entry or the first entry has no message, the partial-success one
    otherwise. *)
Theorem fixJob_status (Helpers : Collaborators) (options : CLIEngineOptions)
  (contents : string) (eslint : ESLint) (filePath : Path.t)
  (st : WorkerState) :
  let r := fixJob Helpers options contents eslint filePath st in
  (forall status, outcome r = Returns status ->
     status = fixComplete \/ status = fixIncomplete) /\
  (forall cliEngine report,
     newCLIEngine eslint options = Returns cliEngine ->
     executeOnText cliEngine contents filePath = Returns report ->
     outputFixes eslint report = Returns tt ->
     exists status,
       outcome r = Returns status /\
       (status = fixComplete <->
        results report = [] \/
        exists first rest,
          results report = first :: rest /\ messages first = []) /\
       (status = fixIncomplete <->
        exists first message others rest,
          results report = first :: rest /\
          messages first = message :: others)).
Proof.
  cbv zeta. split.
  - intros status Hout. apply fixJob_outcome in Hout as (report & _ & ->).
    destruct (nothingLeft report); auto.
  - intros cliEngine report Hnew Hexec Hfix.
    rewrite (fixJob_returns _ _ _ _ _ _ cliEngine report Hnew Hexec Hfix).
    eexists. split; [reflexivity|].
    rewrite <- nothingLeft_spec.
    destruct (nothingLeft report) eqn:Hleft.
    + split; [tauto|]. split; [intros Heq; now apply fix_statuses_differ in Heq|].
      intros (first & message & others & rest & Hres & Hmsg).
      unfold nothingLeft in Hleft. rewrite Hres, Hmsg in Hleft. discriminate.
    + split.
      * split; [intros Heq; symmetry in Heq;
                now apply fix_statuses_differ in Heq | discriminate].
      * split; [intros _ | reflexivity].
        unfold nothingLeft in Hleft.
        destruct (results report) as [|first rest]; [discriminate|].
        destruct (messages first) as [|message others] eqn:Hmsg;
          [discriminate|].
        now exists first, message, others, rest.
Qed.

Lemma fixJob_status_witness :
  outcome (fixJob (Fixtures.helpers (Throws EngineNotFoundError) None)
             (optionsOf (Fixtures.helpers (Throws EngineNotFoundError) None)
                (Fixtures.job "fix" Fixtures.config0))
             "var a = 1"
             (Fixtures.engineOf Fixtures.dirtyReport Fixtures.rules1)
             Fixtures.sourceFile initialState)
  = Returns "Linter-ESLint: Fix attempt complete, but linting errors remain.".
Proof.
  destruct (fixJob_status (Fixtures.helpers (Throws EngineNotFoundError) None)
              (optionsOf (Fixtures.helpers (Throws EngineNotFoundError) None)
                 (Fixtures.job "fix" Fixtures.config0))
              "var a = 1"
              (Fixtures.engineOf Fixtures.dirtyReport Fixtures.rules1)
              Fixtures.sourceFile initialState) as [_ Hruns].
  destruct (Hruns (mkEngine (fun _ _ => Returns Fixtures.dirtyReport)
                     Fixtures.rules1)
              Fixtures.dirtyReport eq_refl eq_refl eq_refl)
    as (status & Hout & _ & Hpartial).
  rewrite Hout. f_equal. apply Hpartial.
  exists (mkResult [Fixtures.semiMissing]), Fixtures.semiMissing, [],
    [mkResult [Fixtures.noVar]].
  split; reflexivity.
Defined.

(** C9: the response to a lint request whose engine ran has as [messages]
    the messages of the report's first result entry, whatever further
    entries hold, and the empty list when the report has no entry. *)
Theorem lint_messages_first_result (Helpers : Collaborators)
  (jobConfig : Job.t) (st : WorkerState) (eslint : ESLint) (report : Report)
  (rules : JsMap.t) :
  Job.type jobConfig = "lint" ->
  engineRan Helpers jobConfig eslint report rules ->
  exists msgs updated,
    emitted (handle Helpers jobConfig st)
    = [(Job.emitKey jobConfig, LintResponse msgs updated)] /\
    (results report = [] -> msgs = []) /\
    (forall first rest, results report = first :: rest ->
                        msgs = messages first).
Proof.
  intros Htype Hran. rewrite (handle_lint _ _ _ eslint report rules Htype Hran).
  exists (firstMessages report). eexists. split.
  - rewrite emitted_trace. cbn [trace].
    rewrite emitsOf_app, emitsOf_prologue. reflexivity.
  - unfold firstMessages. split.
    + now intros ->.
    + now intros first rest ->.
Qed.

Lemma lint_messages_first_result_witness :
  exists updated,
    emitted (handle
               (Fixtures.helpers
                  (Returns (Fixtures.engineOf Fixtures.dirtyReport
                              Fixtures.rules1))
                  (Some Fixtures.projectConfig))
               (Fixtures.job "lint" Fixtures.config0) initialState)
    = [("job-1", LintResponse [Fixtures.semiMissing] updated)].
Proof.
  destruct (lint_messages_first_result
              (Fixtures.helpers
                 (Returns (Fixtures.engineOf Fixtures.dirtyReport
                             Fixtures.rules1))
                 (Some Fixtures.projectConfig))
              (Fixtures.job "lint" Fixtures.config0) initialState
              (Fixtures.engineOf Fixtures.dirtyReport Fixtures.rules1)
              Fixtures.dirtyReport Fixtures.rules1 eq_refl)
    as (msgs & updated & Hemit & _ & Hfirst).
  - repeat split. eexists. repeat split.
  - exists updated. rewrite Hemit.
    now rewrite (Hfirst (mkResult [Fixtures.semiMissing])
                   [mkResult [Fixtures.noVar]] eq_refl).
Defined.

(** ** The rule-metadata snapshot across requests *)

Lemma serve_nth (before after : list (Collaborators * Job.t))
  (Helpers : Collaborators) (jobConfig : Job.t) (st0 : WorkerState) :
  nth_error (serve (before ++ (Helpers, jobConfig) :: after) st0)
    (List.length before)
  = Some (handle Helpers jobConfig (stateAfter before st0)).
Proof.
  revert st0. induction before as [|[H j] before IH]; intros st0.
  - reflexivity.
  - cbn. apply IH.
Qed.

(** C2, as stated, fails for fix requests: a fix request whose engine
    reports rules unknown to the snapshot replaces the snapshot, and its
    response (a status string) carries no [updatedRules]; the lint request
    that follows finds the snapshot up to date and carries none either. *)
Lemma fix_request_keeps_updated_rules :
  let eslint := Fixtures.engineOf Fixtures.cleanReport Fixtures.rules1 in
  let Helpers := Fixtures.helpers (Returns eslint)
                   (Some Fixtures.projectConfig) in
  let fixRequest := Fixtures.job "fix" Fixtures.config0 in
  let lintRequest := Fixtures.job "lint" Fixtures.config0 in
  let r := handle Helpers fixRequest initialState in
  engineRan Helpers fixRequest eslint Fixtures.cleanReport Fixtures.rules1 /\
  didRulesChange Helpers (rulesMetadata initialState) Fixtures.rules1 = true /\
  rulesMetadata (final r) = Fixtures.rules1 /\
  emitted r = [("job-1", FixResponse fixComplete)] /\
  map (fun run => map (fun sent => updatedRulesOf (snd sent)) (emitted run))
    (serve [(Helpers, fixRequest); (Helpers, lintRequest)] initialState)
  = [[None]; [None]].
Proof.
  cbv zeta. split.
  - repeat split. eexists. repeat split.
  - repeat split.
Qed.

(** C2 (amended): for every sequence of requests served by one worker and
    every request in it: the snapshot after the request is the one before
    it, or (the engine ran and its rules differ from the snapshot) the
    engine's rule map rebuilt from empty, entry for entry, with nothing of
    the old snapshot merged in; the response to a lint request whose engine
    ran carries [updatedRules], the serialised new snapshot, when the rule
    diff is true and carries none when it is false; and no response carries
    [updatedRules] otherwise. *)
Theorem snapshot_replaced_and_sent_on_lint
  (before after : list (Collaborators * Job.t)) (Helpers : Collaborators)
  (jobConfig : Job.t) (st0 : WorkerState) :
  let st := stateAfter before st0 in
  let r := handle Helpers jobConfig st in
  nth_error (serve (before ++ (Helpers, jobConfig) :: after) st0)
    (List.length before) = Some r /\
  (rulesMetadata (final r) = rulesMetadata st \/
   exists eslint report rules,
     engineRan Helpers jobConfig eslint report rules /\
     didRulesChange Helpers (rulesMetadata st) rules = true /\
     rulesMetadata (final r) = rebuild JsMap.empty rules /\
     (JsMap.wf rules -> rulesMetadata (final r) = rules)) /\
  (Job.type jobConfig = "lint" ->
   forall eslint report rules,
     engineRan Helpers jobConfig eslint report rules ->
     exists msgs,
       emitted r
       = [(Job.emitKey jobConfig,
           LintResponse msgs
             (if didRulesChange Helpers (rulesMetadata st) rules
              then Some (rulesMetadata (final r))
              else None))] /\
       (didRulesChange Helpers (rulesMetadata st) rules = true ->
        rulesMetadata (final r) = rebuild JsMap.empty rules)) /\
  (forall key response updated,
     In (key, response) (emitted r) ->
     updatedRulesOf response = Some updated ->
     Job.type jobConfig = "lint" /\
     updated = rulesMetadata (final r) /\
     exists eslint report rules,
       engineRan Helpers jobConfig eslint report rules /\
       didRulesChange Helpers (rulesMetadata st) rules = true).
Proof.
  cbv zeta. split; [apply serve_nth|].
  set (st := stateAfter before st0). split; [|split].
  - destruct (handle_final Helpers jobConfig st)
      as [-> | (eslint & report & rules & Hran & ->)]; [now left|].
    unfold synced. cbn [rulesMetadata].
    destruct (didRulesChange Helpers (rulesMetadata st) rules) eqn:Hchanged;
      [right | now left].
    exists eslint, report, rules.
    split; [exact Hran|]. split; [exact Hchanged|]. split; [reflexivity|].
    intros Hwf. now apply rebuild_wf.
  - intros Htype eslint report rules Hran.
    rewrite (handle_lint _ _ _ eslint report rules Htype Hran).
    exists (firstMessages report). rewrite emitted_trace.
    cbn [trace final]. rewrite emitsOf_app, emitsOf_prologue.
    unfold synced. cbn [rulesMetadata emitsOf flat_map app].
    destruct (didRulesChange Helpers (rulesMetadata st) rules).
    + now rewrite exportRules_entries.
    + split; [reflexivity | discriminate].
  - intros key response updated Hin Hupd.
    destruct (handle_updates Helpers jobConfig st key response updated Hin Hupd)
      as (Htype & eslint & report & rules & Hran & Hchanged & ->).
    split; [exact Htype|]. split; [|now exists eslint, report, rules].
    rewrite (handle_lint _ _ _ eslint report rules Htype Hran).
    unfold synced. cbn [final rulesMetadata]. rewrite Hchanged.
    apply exportRules_entries.
Qed.

Lemma snapshot_replaced_and_sent_on_lint_witness :
  let eslint := Fixtures.engineOf Fixtures.dirtyReport Fixtures.rules1 in
  let Helpers := Fixtures.helpers (Returns eslint)
                   (Some Fixtures.projectConfig) in
  let lintRequest := Fixtures.job "lint" Fixtures.config0 in
  let sent (r : Run unit) :=
    map (fun answer => updatedRulesOf (snd answer)) (emitted r) in
  sent (handle Helpers lintRequest initialState) = [Some Fixtures.rules1] /\
  sent (handle Helpers lintRequest
          (stateAfter [(Helpers, lintRequest)] initialState)) = [None].
Proof.
  cbv zeta.
  pose (eslint := Fixtures.engineOf Fixtures.dirtyReport Fixtures.rules1).
  pose (Helpers := Fixtures.helpers (Returns eslint)
                     (Some Fixtures.projectConfig)).
  pose (lintRequest := Fixtures.job "lint" Fixtures.config0).
  assert (Hran : engineRan Helpers lintRequest eslint Fixtures.dirtyReport
                   Fixtures.rules1).
  { repeat split. eexists. repeat split. }
  destruct (snapshot_replaced_and_sent_on_lint [] [(Helpers, lintRequest)]
              Helpers lintRequest initialState)
    as (_ & _ & Hfirst & _).
  destruct (Hfirst eq_refl eslint Fixtures.dirtyReport Fixtures.rules1 Hran)
    as (msgs1 & Hemit1 & _).
  destruct (snapshot_replaced_and_sent_on_lint [(Helpers, lintRequest)] []
              Helpers lintRequest initialState)
    as (_ & _ & Hsecond & _).
  destruct (Hsecond eq_refl eslint Fixtures.dirtyReport Fixtures.rules1 Hran)
    as (msgs2 & Hemit2 & _).
  fold eslint Helpers lintRequest.
  split.
  - change (stateAfter [] initialState) with initialState in Hemit1.
    rewrite Hemit1. reflexivity.
  - rewrite Hemit2. reflexivity.
Defined.

(** ** The engine locator *)

(** C4: with [advancedLocalNodeModules] set, resolution looks for the
    engine directly under that path (itself when absolute, joined to
    [projectPath] when relative); an engine there is returned as "advanced
    specified" with that location as path, whatever [useGlobalEslint]
    is; without one resolution fails with [EngineNotFoundError] and tries
    nothing else. *)
Theorem advanced_path_decides (inst : Installation) (fs : FileSystem)
  (startDir : Path.t) (config : Config) (projectPath : option Path.t)
  (p : Path.t) :
  advancedLocalNodeModules config = Some p ->
  let modules := EngineLocator.advancedModules projectPath p in
  let dir := Path.sub modules ["eslint"] in
  (Path.isAbsolute p = true -> modules = p) /\
  (forall project, Path.isAbsolute p = false -> projectPath = Some project ->
                   modules = Path.join project p) /\
  (forall m, engineAt fs dir = Some m ->
     EngineLocator.resolve inst fs startDir config projectPath
     = Returns (mkHandle m (Descriptor.mk dir "advanced specified"))) /\
  (engineAt fs dir = None ->
     EngineLocator.resolve inst fs startDir config projectPath
     = Throws EngineNotFoundError) /\
  (forall useGlobal,
     EngineLocator.resolve inst fs startDir
       (mkConfig useGlobal (globalNodePath config)
          (advancedLocalNodeModules config) (disableFSCache config)
          (disableEslintIgnore config) (disableWhenNoEslintConfig config))
       projectPath
     = EngineLocator.resolve inst fs startDir config projectPath).
Proof.
  intros Hadv. cbv zeta. unfold EngineLocator.advancedModules.
  split; [now intros ->|]. split; [now intros project -> ->|].
  unfold EngineLocator.resolve. cbn [advancedLocalNodeModules].
  rewrite Hadv. unfold EngineLocator.advancedModules, EngineLocator.engineName.
  split; [now intros m ->|]. split; [now intros ->|]. reflexivity.
Qed.

Lemma advanced_path_decides_witness :
  let modules := Path.mk false ["tools"; "node_modules"] in
  let config :=
    mkConfig true (Fixtures.abs ["usr"; "local"]) (Some modules)
      false false false in
  let found :=
    Fixtures.abs ["home"; "dev"; "project"; "tools"; "node_modules"; "eslint"] in
  let fs :=
    Fixtures.disk
      [found;
       Fixtures.abs ["usr"; "local"; "lib"; "node_modules"; "eslint"]] [] in
  EngineLocator.resolve Fixtures.linux fs
    (Path.dirname Fixtures.sourceFile) config (Some Fixtures.projectDir)
  = Returns (mkHandle (Fixtures.engineOf Fixtures.cleanReport Fixtures.rules1)
               (Descriptor.mk found "advanced specified")).
Proof.
  cbv zeta.
  destruct (advanced_path_decides Fixtures.linux
              (Fixtures.disk
                 [Fixtures.abs ["home"; "dev"; "project"; "tools";
                                "node_modules"; "eslint"];
                  Fixtures.abs ["usr"; "local"; "lib"; "node_modules";
                                "eslint"]] [])
              (Path.dirname Fixtures.sourceFile)
              (mkConfig true (Fixtures.abs ["usr"; "local"])
                 (Some (Path.mk false ["tools"; "node_modules"]))
                 false false false)
              (Some Fixtures.projectDir)
              (Path.mk false ["tools"; "node_modules"]) eq_refl)
    as (_ & _ & Hfound & _).
  exact (Hfound _ eq_refl).
Defined.

(** C7: with [advancedLocalNodeModules] unset and [useGlobalEslint] true,
    resolution looks at one directory only, under [config.globalNodePath]:
    [node_modules/eslint] on win32, [lib/node_modules/eslint] elsewhere; an
    engine there is returned as "global"; without one resolution throws
    [EngineNotFoundError], whatever local or bundled engine exists, and the
    handler lets the exception through without emitting. *)
Theorem global_engine_only (inst : Installation) (fs : FileSystem)
  (startDir : Path.t) (config : Config) (projectPath : option Path.t) :
  advancedLocalNodeModules config = None ->
  useGlobalEslint config = true ->
  let dir :=
    if String.eqb (platform inst) "win32"
    then Path.sub (globalNodePath config) ["node_modules"; "eslint"]
    else Path.sub (globalNodePath config) ["lib"; "node_modules"; "eslint"] in
  (forall m, engineAt fs dir = Some m ->
     EngineLocator.resolve inst fs startDir config projectPath
     = Returns (mkHandle m (Descriptor.mk dir "global"))) /\
  (engineAt fs dir = None ->
     EngineLocator.resolve inst fs startDir config projectPath
     = Throws EngineNotFoundError) /\
  (forall fs' startDir',
     engineAt fs' dir = engineAt fs dir ->
     EngineLocator.resolve inst fs' startDir' config projectPath
     = EngineLocator.resolve inst fs startDir config projectPath) /\
  (forall Helpers jobConfig st,
     engineAt fs dir = None ->
     Job.config jobConfig = config ->
     Job.projectPath jobConfig = projectPath ->
     let r := handle (withLocator inst fs Helpers) jobConfig st in
     outcome r = Throws EngineNotFoundError /\ emitted r = [] /\
     executions r = []).
Proof.
  intros Hadv Hglobal. cbv zeta.
  assert (Hresolve : forall fs' startDir',
            EngineLocator.resolve inst fs' startDir' config projectPath
            = match engineAt fs'
                      (if String.eqb (platform inst) "win32"
                       then Path.sub (globalNodePath config)
                              ["node_modules"; "eslint"]
                       else Path.sub (globalNodePath config)
                              ["lib"; "node_modules"; "eslint"]) with
              | Some m =>
                  Returns
                    (mkHandle m
                       (Descriptor.mk
                          (if String.eqb (platform inst) "win32"
                           then Path.sub (globalNodePath config)
                                  ["node_modules"; "eslint"]
                           else Path.sub (globalNodePath config)
                                  ["lib"; "node_modules"; "eslint"])
                          "global"))
              | None => Throws EngineNotFoundError
              end).
  { intros fs' startDir'. unfold EngineLocator.resolve.
    rewrite Hadv, Hglobal.
    unfold EngineLocator.globalModules, EngineLocator.engineName, Path.sub,
      Path.join.
    destruct (String.eqb (platform inst) "win32"); cbn;
      rewrite <- app_assoc; reflexivity. }
  split; [intros m Hm; now rewrite Hresolve, Hm|].
  split; [intros Hnone; now rewrite Hresolve, Hnone|].
  split; [intros fs' startDir' Hsame; now rewrite !Hresolve, Hsame|].
  intros Helpers jobConfig st Hnone Hcfg Hproj.
  assert (Hres : resolved (withLocator inst fs Helpers) jobConfig
                 = Throws EngineNotFoundError).
  { unfold resolved, withLocator. cbn [getESLintInstance].
    unfold EngineLocator.getESLintInstance.
    now rewrite Hcfg, Hproj, Hresolve, Hnone. }
  rewrite (handle_resolution_throws _ _ _ _ Hres).
  unfold executions. rewrite emitted_trace. cbn [trace outcome].
  now rewrite emitsOf_prologue, executions_prologue.
Qed.

Lemma global_engine_only_witness :
  let config :=
    mkConfig true (Fixtures.abs ["usr"; "local"]) None false false false in
  let localOnly :=
    Fixtures.disk
      [Fixtures.abs ["home"; "dev"; "project"; "node_modules"; "eslint"]] [] in
  EngineLocator.resolve Fixtures.linux localOnly
    (Path.dirname Fixtures.sourceFile) config (Some Fixtures.projectDir)
  = Throws EngineNotFoundError.
Proof.
  cbv zeta.
  destruct (global_engine_only Fixtures.linux
              (Fixtures.disk
                 [Fixtures.abs ["home"; "dev"; "project"; "node_modules";
                                "eslint"]] [])
              (Path.dirname Fixtures.sourceFile)
              (mkConfig true (Fixtures.abs ["usr"; "local"]) None
                 false false false)
              (Some Fixtures.projectDir) eq_refl eq_refl)
    as (_ & Hmissing & _).
  exact (Hmissing eq_refl).
Defined.

(** C8: with [advancedLocalNodeModules] unset and [useGlobalEslint]
    false, when neither the starting directory nor any directory above it
    holds [node_modules/eslint], resolution returns the bundled engine as
    "bundled fallback" with the worker's own installation as path; it
    does not fail. *)
Theorem bundled_fallback_when_no_local (inst : Installation)
  (fs : FileSystem) (startDir : Path.t) (config : Config)
  (projectPath : option Path.t) :
  advancedLocalNodeModules config = None ->
  useGlobalEslint config = false ->
  (forall dir, Path.isAncestor dir startDir = true ->
     engineAt fs (Path.sub dir ["node_modules"; "eslint"]) = None) ->
  EngineLocator.resolve inst fs startDir config projectPath
  = Returns (mkHandle (bundledEngine inst)
               (Descriptor.mk (bundledPath inst) "bundled fallback")).
Proof.
  intros Hadv Hglobal Hnone. unfold EngineLocator.resolve.
  rewrite Hadv, Hglobal, nearest_none; [reflexivity|].
  intros dir Hdir. apply Hnone. now apply in_ancestors.
Qed.

Lemma bundled_fallback_when_no_local_witness :
  EngineLocator.resolve Fixtures.linux
    (Fixtures.disk
       [Fixtures.abs ["usr"; "local"; "lib"; "node_modules"; "eslint"]] [])
    (Path.dirname Fixtures.sourceFile) Fixtures.config0
    (Some Fixtures.projectDir)
  = Returns (mkHandle (bundledEngine Fixtures.linux)
               (Descriptor.mk
                  (Fixtures.abs ["opt"; "linter-eslint"; "node_modules";
                                 "eslint"])
                  "bundled fallback")).
Proof.
  apply (bundled_fallback_when_no_local Fixtures.linux
           (Fixtures.disk
              [Fixtures.abs ["usr"; "local"; "lib"; "node_modules"; "eslint"]]
              [])
           (Path.dirname Fixtures.sourceFile) Fixtures.config0
           (Some Fixtures.projectDir) eq_refl eq_refl).
  intros dir Hdir. apply in_ancestors in Hdir. cbn in Hdir.
  repeat (destruct Hdir as [<- | Hdir]; [reflexivity|]). destruct Hdir.
Defined.

(** ** The path normaliser *)

(** C6: when ignore files are not disabled and the walk up from [fileDir]
    finds one (in [fileDir] or above it), the result is [filePath]
    relative to the directory of that file; otherwise (disabled, or none
    found) it is [filePath] relative to [projectPath] when a project path
    is given and is an ancestor of [filePath], and the base name of
    [filePath] when none is given or it is not an ancestor. *)
Theorem relativePath_anchor (fs : FileSystem) (fileDir filePath : Path.t)
  (config : Config) (projectPath : option Path.t) :
  let ignoreFile := PathNormalizer.findIgnore fs (Path.ancestors fileDir) in
  let result :=
    PathNormalizer.relativePath fs fileDir filePath config projectPath in
  (forall found,
     disableEslintIgnore config = false -> ignoreFile = Some found ->
     result = Path.relative (Path.dirname found) filePath /\
     Path.isAncestor (Path.dirname found) fileDir = true /\
     fileAt fs found = true) /\
  (disableEslintIgnore config = true \/ ignoreFile = None ->
   (forall project,
      projectPath = Some project ->
      Path.isAncestor project filePath = true ->
      result = Path.relative project filePath /\
      Path.segments filePath = Path.segments project ++ Path.segments result) /\
   (forall project,
      projectPath = Some project ->
      Path.isAncestor project filePath = false ->
      result = Path.basename filePath) /\
   (projectPath = None -> result = Path.basename filePath)).
Proof.
  cbv zeta. unfold PathNormalizer.relativePath. split.
  - intros found -> Hfound. rewrite Hfound. split; [reflexivity|].
    apply findIgnore_some in Hfound as (dir & Hdir & -> & Hfile).
    rewrite dirname_sub. split; [now apply in_ancestors | exact Hfile].
  - intros Hfallback.
    assert (Hnone : (if disableEslintIgnore config then None
                     else PathNormalizer.findIgnore fs (Path.ancestors fileDir))
                    = None).
    { destruct Hfallback as [-> | Hnone]; [reflexivity|].
      now destruct (disableEslintIgnore config). }
    rewrite Hnone. split; [|split].
    + intros project -> Hanc. rewrite Hanc. split; [reflexivity|].
      now apply relative_below.
    + now intros project -> ->.
    + now intros ->.
Qed.

Lemma relativePath_anchor_witness :
  let fs :=
    Fixtures.disk []
      [Fixtures.abs ["home"; "dev"; "project"; ".eslintignore"]] in
  PathNormalizer.relativePath fs (Path.dirname Fixtures.sourceFile)
    Fixtures.sourceFile Fixtures.config0 None
  = Path.mk false ["src"; "app.js"] /\
  PathNormalizer.relativePath fs (Path.dirname Fixtures.sourceFile)
    Fixtures.sourceFile
    (mkConfig false Path.root None false true false) None
  = Path.mk false ["app.js"].
Proof.
  cbv zeta. split.
  - destruct (relativePath_anchor
                (Fixtures.disk []
                   [Fixtures.abs ["home"; "dev"; "project"; ".eslintignore"]])
                (Path.dirname Fixtures.sourceFile) Fixtures.sourceFile
                Fixtures.config0 None) as [Hfound _].
    destruct (Hfound (Fixtures.abs ["home"; "dev"; "project"; ".eslintignore"])
                eq_refl eq_refl) as [-> _].
    reflexivity.
  - destruct (relativePath_anchor
                (Fixtures.disk []
                   [Fixtures.abs ["home"; "dev"; "project"; ".eslintignore"]])
                (Path.dirname Fixtures.sourceFile) Fixtures.sourceFile
                (mkConfig false Path.root None false true false) None)
      as [_ Hfallback].
    destruct (Hfallback (or_introl eq_refl)) as (_ & _ & Hbase).
    rewrite (Hbase eq_refl). reflexivity.
Defined.

(** ** The rule registry *)

(** C5: the registry's diff (the comparison, then lines 19-24 of
    [lintJob]) is true for any non-empty rule set against the empty
    snapshot the worker starts with; false when called again with the rule set it was just
    called with; true whenever the rule set differs from the snapshot at
    some rule id (a rule added, removed, or with metadata of another
    value); false when the two agree rule by rule in value, whatever the
    identity of the metadata objects; a true result leaves as snapshot
    the current rule set, entry for entry, and a false one leaves the
    snapshot as it was; and this is what [lintJob] does with the rules of
    the engine it ran. *)
Theorem registry_diff (Helpers : Collaborators) :
  (forall rules st,
     rulesMetadata st = JsMap.empty ->
     rules <> [] ->
     fst (RuleRegistry.diff Helpers rules st) = true) /\
  (forall rules st,
     JsMap.wf rules ->
     fst (RuleRegistry.diff Helpers rules
            (snd (RuleRegistry.diff Helpers rules st))) = false) /\
  (forall rules st rule,
     JsMap.wf (rulesMetadata st) ->
     RuleRegistry.differAt (rulesMetadata st) rules rule ->
     fst (RuleRegistry.diff Helpers rules st) = true) /\
  (forall rules st,
     JsMap.wf rules ->
     Forall2 (fun a b => fst a = fst b /\ sameValue (snd a) (snd b) = true)
       (rulesMetadata st) rules ->
     fst (RuleRegistry.diff Helpers rules st) = false) /\
  (forall rules st,
     fst (RuleRegistry.diff Helpers rules st) = true ->
     rulesMetadata (snd (RuleRegistry.diff Helpers rules st))
     = rebuild JsMap.empty rules /\
     (JsMap.wf rules ->
      rulesMetadata (snd (RuleRegistry.diff Helpers rules st)) = rules)) /\
  (forall rules st,
     fst (RuleRegistry.diff Helpers rules st) = false ->
     rulesMetadata (snd (RuleRegistry.diff Helpers rules st))
     = rulesMetadata st) /\
  (forall options contents eslint filePath st cliEngine report,
     newCLIEngine eslint options = Returns cliEngine ->
     executeOnText cliEngine contents filePath = Returns report ->
     final (lintJob (RuleRegistry.install Helpers) options contents eslint
              filePath st)
     = snd (RuleRegistry.diff Helpers (definedRules cliEngine) st)).
Proof.
  repeat match goal with |- _ /\ _ => split end.
  - intros rules st Hempty Hne. rewrite diff_run, Hempty. cbn [fst].
    unfold RuleRegistry.didRulesChange. destruct rules; [contradiction|].
    reflexivity.
  - intros rules st Hwf. rewrite !diff_run. cbn [fst snd rulesMetadata].
    destruct (RuleRegistry.didRulesChange (rulesMetadata st) rules) eqn:Hfirst.
    + rewrite (rebuild_wf _ _ Hwf). now apply unchanged_self.
    + exact Hfirst.
  - intros rules st rule Hwf Hdiff. rewrite diff_run. cbn [fst].
    exact (changed_when_differ _ _ rule Hwf Hdiff).
  - intros rules st Hwf Hsame. rewrite diff_run. cbn [fst].
    now apply unchanged_by_value.
  - intros rules st. rewrite diff_run. cbn [fst snd rulesMetadata].
    intros ->. split; [reflexivity | intros Hwf; now apply rebuild_wf].
  - intros rules st. rewrite diff_run. cbn [fst snd rulesMetadata].
    now intros ->.
  - intros options contents eslint filePath st cliEngine report Hnew Hexec.
    rewrite (lintJob_returns _ _ _ _ _ _ cliEngine report Hnew Hexec).
    unfold RuleRegistry.diff. now rewrite syncRules_run.
Qed.

Lemma registry_diff_witness :
  let Helpers := Fixtures.helpers (Throws EngineNotFoundError) None in
  let first := RuleRegistry.diff Helpers Fixtures.rules1 initialState in
  fst first = true /\
  fst (RuleRegistry.diff Helpers Fixtures.rules1 (snd first)) = false /\
  fst (RuleRegistry.diff Helpers Fixtures.rules1' (snd first)) = false /\
  fst (RuleRegistry.diff Helpers Fixtures.rules2 (snd first)) = true.
Proof.
  cbv zeta.
  destruct (registry_diff (Fixtures.helpers (Throws EngineNotFoundError) None))
    as (Hfirst & Hagain & Hdiffer & Hvalue & _).
  assert (Hwf1 : JsMap.wf Fixtures.rules1).
  { repeat constructor; cbn; intuition discriminate. }
  assert (Hwf1' : JsMap.wf Fixtures.rules1').
  { repeat constructor; cbn; intuition discriminate. }
  split; [apply Hfirst; [reflexivity | discriminate]|].
  split; [apply Hagain; exact Hwf1|].
  split.
  - apply Hvalue; [exact Hwf1'|]. repeat constructor.
  - apply (Hdiffer Fixtures.rules2 _ "semi"); [exact Hwf1 | reflexivity].
Defined.

(** ** The tests of [worker-helpers], on the model *)

Module HelperTests.

Import Fixtures.

(** 'finds a local eslint when useGlobalEslint is false' *)
Example finds_local :
  EngineLocator.resolve packaged tree
    (Path.sub (fixtures "local-eslint") ["node_modules"])
    (only false Path.cwd None false) None
  = Returns
      (mkHandle (engineOf cleanReport rules1)
         (Descriptor.mk
            (Path.sub (fixtures "local-eslint") ["node_modules"; "eslint"])
            "local project")).
Proof. reflexivity. Qed.

(** 'finds a global eslint when useGlobalEslint is true and a valid
    globalNodePath is provided' *)
Example finds_global :
  EngineLocator.resolve packaged tree
    (Path.sub (fixtures "local-eslint") ["node_modules"])
    (only true (fixtures "global-eslint") None false) None
  = Returns
      (mkHandle (engineOf cleanReport rules1)
         (Descriptor.mk
            (Path.sub (fixtures "global-eslint")
               ["lib"; "node_modules"; "eslint"])
            "global")).
Proof. reflexivity. Qed.

(** The same test on win32, where [globalNodePath] is the fixture's
    [lib] directory. *)
Example finds_global_win32 :
  EngineLocator.resolve windows tree
    (Path.sub (fixtures "local-eslint") ["node_modules"])
    (only true (Path.sub (fixtures "global-eslint") ["lib"]) None false) None
  = Returns
      (mkHandle (engineOf cleanReport rules1)
         (Descriptor.mk
            (Path.sub (Path.sub (fixtures "global-eslint") ["lib"])
               ["node_modules"; "eslint"])
            "global")).
Proof. reflexivity. Qed.

(** 'falls back to the packaged eslint when no local eslint is found' *)
Example falls_back :
  EngineLocator.resolve packaged tree
    (Path.mk false ["not"; "a"; "real"; "path"])
    (only false Path.cwd None false) None
  = Returns
      (mkHandle (bundledEngine packaged)
         (Descriptor.mk (abs ["pkg"; "node_modules"; "eslint"])
            "bundled fallback")).
Proof. reflexivity. Qed.

(** 'tries to find an indirect local eslint using a relative path' *)
Example finds_indirect :
  EngineLocator.getESLintInstance packaged tree Path.cwd
    (only false Path.cwd
       (Some (Path.mk false
                ["indirect-local-eslint"; "testing"; "eslint"; "node_modules"]))
       false)
    (Some (abs ["pkg"; "spec"; "fixtures"]))
  = Returns (engineOf cleanReport rules1).
Proof. reflexivity. Qed.

(** 'cries if global eslint is not found' *)
Example cries_without_global :
  EngineLocator.getESLintInstance packaged tree (fixtures "local-eslint")
    (only true (fixtures "files") None false) None
  = Throws EngineNotFoundError.
Proof. reflexivity. Qed.

(** 'return path relative of ignore file if found' *)
Example relative_to_ignore_file :
  PathNormalizer.relativePath tree (fixtures "eslintignore")
    (Path.sub (fixtures "eslintignore") ["ignored.js"])
    (only false Path.cwd None false) None
  = Path.relative (abs ["pkg"])
      (Path.sub (fixtures "eslintignore") ["ignored.js"]).
Proof. reflexivity. Qed.

(** 'does not return path relative to ignore file if config overrides it' *)
Example ignore_file_overridden :
  PathNormalizer.relativePath tree (fixtures "eslintignore")
    (Path.sub (fixtures "eslintignore") ["ignored.js"])
    (only false Path.cwd None true) None
  = Path.mk false ["ignored.js"].
Proof. reflexivity. Qed.

(** 'returns the path relative to the project dir if provided when no
    ignore file is found' *)
Example relative_to_project :
  PathNormalizer.relativePath tree (abs ["tmp"; "asgln3"])
    (abs ["tmp"; "asgln3"; "good.js"]) (only false Path.cwd None false)
    (Some (abs ["tmp"]))
  = Path.join (Path.basename (abs ["tmp"; "asgln3"])) (Path.mk false ["good.js"]).
Proof. reflexivity. Qed.

(** 'returns just the file being linted if no ignore file is found and no
    project dir is provided' *)
Example just_the_file :
  PathNormalizer.relativePath tree (abs ["tmp"; "asgln3"])
    (abs ["tmp"; "asgln3"; "good.js"]) (only false Path.cwd None false) None
  = Path.mk false ["good.js"].
Proof. reflexivity. Qed.

End HelperTests.

(** ** Further properties of the message handler *)

Section HandlerShapes.

Variable Helpers : Collaborators.
Variables (jobConfig : Job.t) (st : WorkerState).

(** The three ways [lintJob] ends, with its whole run. *)
Lemma lintJob_run (options : CLIEngineOptions) (contents : string)
  (eslint : ESLint) (filePath : Path.t) :
  lintJob Helpers options contents eslint filePath st
  = match newCLIEngine eslint options with
    | Throws e => mkRun st [] (Throws e)
    | Returns cliEngine =>
        match executeOnText cliEngine contents filePath with
        | Throws e =>
            mkRun st [ExecuteOnText options contents filePath] (Throws e)
        | Returns report =>
            mkRun (synced Helpers (getRules Helpers cliEngine) st)
              [ExecuteOnText options contents filePath] (Returns report)
        end
    end.
Proof.
  destruct (newCLIEngine eslint options) as [e|cliEngine] eqn:Hnew.
  - exact (lintJob_no_engine _ _ _ _ _ _ e Hnew).
  - destruct (executeOnText cliEngine contents filePath) as [e|report] eqn:Hexec.
    + exact (lintJob_engine_throws _ _ _ _ _ _ cliEngine e Hnew Hexec).
    + exact (lintJob_returns _ _ _ _ _ _ cliEngine report Hnew Hexec).
Qed.

(** A request of type debug past the skip test. *)
Lemma respond_debug (eslint : ESLint) :
  Job.type jobConfig = "debug" ->
  responseOf Helpers jobConfig eslint st
  = let modulesDir :=
      Path.dirname
        match findCached Helpers (fileDirOf jobConfig)
                (Path.mk false ["node_modules"; "eslint"]) with
        | Some found => found
        | None => Path.cwd
        end in
    mkRun st [FindESLintDirectory modulesDir]
      match findESLintDirectory Helpers modulesDir (Job.config jobConfig)
              (Job.projectPath jobConfig) with
      | Throws e => Throws e
      | Returns found => Returns (DebugResponse found)
      end.
Proof.
  intros Htype. unfold responseOf, respond. rewrite Htype. cbn.
  unfold bind, call, ret. cbn.
  destruct (findESLintDirectory Helpers _ _ _); reflexivity.
Qed.

Lemma respond_unknown (eslint : ESLint) :
  Job.type jobConfig <> "lint" ->
  Job.type jobConfig <> "fix" ->
  Job.type jobConfig <> "debug" ->
  responseOf Helpers jobConfig eslint st = mkRun st [] (Returns UndefinedResponse).
Proof.
  intros Hlint Hfix Hdebug. unfold responseOf, respond.
  destruct (String.eqb_spec (Job.type jobConfig) "lint"); [contradiction|].
  destruct (String.eqb_spec (Job.type jobConfig) "fix"); [contradiction|].
  destruct (String.eqb_spec (Job.type jobConfig) "debug"); [contradiction|].
  reflexivity.
Qed.

End HandlerShapes.

(** X1: a request is answered at most once and only under its own
    [emitKey]: when the handler returns, its last call is the one [emit],
    with the request's key, and nothing was emitted before it; when it
    throws, nothing was emitted. *)
Theorem one_response_per_request (Helpers : Collaborators)
  (jobConfig : Job.t) (st : WorkerState) :
  let r := handle Helpers jobConfig st in
  (outcome r = Returns tt ->
   exists before response,
     trace r = before ++ [Emit (Job.emitKey jobConfig) response] /\
     emitsOf before = [] /\
     emitted r = [(Job.emitKey jobConfig, response)]) /\
  (forall e, outcome r = Throws e -> emitted r = []) /\
  (forall key response,
     In (key, response) (emitted r) -> key = Job.emitKey jobConfig).
Proof.
  cbv zeta.
  assert (Hshape :
    (exists e, outcome (handle Helpers jobConfig st) = Throws e /\
               emitted (handle Helpers jobConfig st) = []) \/
    (exists before response,
       outcome (handle Helpers jobConfig st) = Returns tt /\
       trace (handle Helpers jobConfig st)
       = before ++ [Emit (Job.emitKey jobConfig) response] /\
       emitsOf before = [])).
  { destruct (resolved Helpers jobConfig) as [e|eslint] eqn:Hres.
    { left. exists e. rewrite (handle_resolution_throws _ _ _ e Hres).
      rewrite emitted_trace. cbn [trace outcome].
      now rewrite emitsOf_prologue. }
    destruct (skips Helpers jobConfig) eqn:Hskip.
    { right. rewrite (handle_skips _ _ _ eslint Hres Hskip).
      exists (prologue jobConfig ++ [GetConfigPath (fileDirOf jobConfig)]),
        (LintResponse [] None).
      cbn [trace outcome]. rewrite <- app_assoc.
      repeat split. now rewrite emitsOf_app, emitsOf_prologue. }
    pose proof (respond_no_emit Helpers jobConfig st eslint) as Hnone.
    rewrite (handle_executing _ _ _ eslint Hres Hskip). cbv zeta.
    destruct (outcome (responseOf Helpers jobConfig eslint st))
      as [e|response].
    - left. exists e. rewrite emitted_trace. cbn [trace outcome].
      rewrite emitsOf_app, emitsOf_prologue. cbn. now split.
    - right.
      exists (prologue jobConfig
              ++ GetConfigPath (fileDirOf jobConfig)
                 :: trace (responseOf Helpers jobConfig eslint st)),
        response.
      cbn [trace outcome]. rewrite <- app_assoc. cbn [app].
      repeat split. rewrite emitsOf_app, emitsOf_prologue. cbn.
      exact Hnone. }
  assert (Hone : forall before response,
            trace (handle Helpers jobConfig st)
            = before ++ [Emit (Job.emitKey jobConfig) response] ->
            emitsOf before = [] ->
            emitted (handle Helpers jobConfig st)
            = [(Job.emitKey jobConfig, response)]).
  { intros before response Htrace Hbefore.
    now rewrite emitted_trace, Htrace, emitsOf_app, Hbefore. }
  destruct Hshape as [(e & Hout & Hemit) |
                      (before & response & Hout & Htrace & Hbefore)].
  - split; [rewrite Hout; discriminate|].
    split; [intros _ _; exact Hemit|].
    intros key response. rewrite Hemit. intros [].
  - split.
    { intros _. exists before, response.
      split; [exact Htrace|]. split; [exact Hbefore|].
      exact (Hone before response Htrace Hbefore). }
    split; [intros e; rewrite Hout; discriminate|].
    intros key response'. rewrite (Hone before response Htrace Hbefore).
    now intros [[= <- _]|[]].
Qed.

Lemma one_response_per_request_witness :
  exists before response,
    trace (handle
             (Fixtures.helpers
                (Returns (Fixtures.engineOf Fixtures.dirtyReport
                            Fixtures.rules1))
                (Some Fixtures.projectConfig))
             (Fixtures.job "fix" Fixtures.config0) initialState)
    = before ++ [Emit "job-1" response] /\
    emitsOf before = [].
Proof.
  destruct (one_response_per_request
              (Fixtures.helpers
                 (Returns (Fixtures.engineOf Fixtures.dirtyReport
                             Fixtures.rules1))
                 (Some Fixtures.projectConfig))
              (Fixtures.job "fix" Fixtures.config0) initialState)
    as (Hreturns & _).
  destruct (Hreturns eq_refl) as (before & response & Htrace & Hnone & _).
  now exists before, response.
Defined.

(** X2: a debug request past the skip test runs no lint: it asks
    [findESLintDirectory] about the directory that holds the
    [node_modules/eslint] found from the file's directory (['.'] when
    none is found), answers with the descriptor returned, and leaves the
    module state alone; when that lookup throws, the exception leaves the
    handler and nothing is emitted. The engine resolved on line 49 plays
    no part in the answer. *)
Theorem debug_request_describes (Helpers : Collaborators) (jobConfig : Job.t)
  (st : WorkerState) (eslint : ESLint) :
  Job.type jobConfig = "debug" ->
  resolved Helpers jobConfig = Returns eslint ->
  skips Helpers jobConfig = false ->
  let modulesDir :=
    match findCached Helpers (fileDirOf jobConfig)
            (Path.mk false ["node_modules"; "eslint"]) with
    | Some found => Path.dirname found
    | None => Path.cwd
    end in
  let looked :=
    prologue jobConfig
    ++ [GetConfigPath (fileDirOf jobConfig); FindESLintDirectory modulesDir] in
  handle Helpers jobConfig st
  = match findESLintDirectory Helpers modulesDir (Job.config jobConfig)
            (Job.projectPath jobConfig) with
    | Returns found =>
        mkRun st
          (looked ++ [Emit (Job.emitKey jobConfig) (DebugResponse found)])
          (Returns tt)
    | Throws e => mkRun st looked (Throws e)
    end.
Proof.
  intros Htype Hres Hskip. cbv zeta.
  rewrite (handle_executing _ _ _ eslint Hres Hskip).
  rewrite (respond_debug _ _ _ eslint Htype). cbv zeta.
  assert (Hdir :
    Path.dirname
      match findCached Helpers (fileDirOf jobConfig)
              (Path.mk false ["node_modules"; "eslint"]) with
      | Some found => found
      | None => Path.cwd
      end
    = match findCached Helpers (fileDirOf jobConfig)
              (Path.mk false ["node_modules"; "eslint"]) with
      | Some found => Path.dirname found
      | None => Path.cwd
      end).
  { now destruct (findCached Helpers _ _). }
  rewrite Hdir. cbn [outcome final trace].
  destruct (findESLintDirectory Helpers _ _ _);
    rewrite <- ?app_assoc; reflexivity.
Qed.

Lemma debug_request_describes_witness :
  handle (Fixtures.helpers (Returns (Fixtures.engineOf Fixtures.dirtyReport
                                       Fixtures.rules1))
            (Some Fixtures.projectConfig))
    (Fixtures.job "debug" Fixtures.config0) initialState
  = mkRun initialState
      [GetESLintInstance (Path.dirname Fixtures.sourceFile) Fixtures.config0
         (Some Fixtures.projectDir);
       GetConfigPath (Path.dirname Fixtures.sourceFile);
       FindESLintDirectory Path.cwd;
       Emit "job-1"
         (DebugResponse
            (Descriptor.mk (Fixtures.abs ["opt"; "eslint"]) "bundled fallback"))]
      (Returns tt).
Proof.
  exact (debug_request_describes
           (Fixtures.helpers
              (Returns (Fixtures.engineOf Fixtures.dirtyReport Fixtures.rules1))
              (Some Fixtures.projectConfig))
           (Fixtures.job "debug" Fixtures.config0) initialState
           (Fixtures.engineOf Fixtures.dirtyReport Fixtures.rules1)
           eq_refl eq_refl eq_refl).
Defined.

(** X3: a request whose type is none of lint, fix and debug is not
    refused: past the skip test the handler emits [undefined] under the
    request's key and returns, without any engine call and without
    touching the module state. *)
Theorem unknown_type_answers_undefined (Helpers : Collaborators)
  (jobConfig : Job.t) (st : WorkerState) (eslint : ESLint) :
  Job.type jobConfig <> "lint" ->
  Job.type jobConfig <> "fix" ->
  Job.type jobConfig <> "debug" ->
  resolved Helpers jobConfig = Returns eslint ->
  skips Helpers jobConfig = false ->
  handle Helpers jobConfig st
  = mkRun st
      (prologue jobConfig
       ++ [GetConfigPath (fileDirOf jobConfig);
           Emit (Job.emitKey jobConfig) UndefinedResponse])
      (Returns tt).
Proof.
  intros Hlint Hfix Hdebug Hres Hskip.
  rewrite (handle_executing _ _ _ eslint Hres Hskip).
  now rewrite (respond_unknown _ _ _ eslint Hlint Hfix Hdebug).
Qed.

Lemma unknown_type_answers_undefined_witness :
  emitted (handle
             (Fixtures.helpers
                (Returns (Fixtures.engineOf Fixtures.dirtyReport
                            Fixtures.rules1))
                (Some Fixtures.projectConfig))
             (Fixtures.job "Lint" Fixtures.config0) initialState)
  = [("job-1", UndefinedResponse)].
Proof.
  rewrite (unknown_type_answers_undefined
             (Fixtures.helpers
                (Returns (Fixtures.engineOf Fixtures.dirtyReport
                            Fixtures.rules1))
                (Some Fixtures.projectConfig))
             (Fixtures.job "Lint" Fixtures.config0) initialState
             (Fixtures.engineOf Fixtures.dirtyReport Fixtures.rules1)).
  - reflexivity.
  - discriminate.
  - discriminate.
  - discriminate.
  - reflexivity.
  - reflexivity.
Defined.

(** X4: when building the engine or running it on the text throws, for a
    lint or a fix request, the exception leaves the handler as it is:
    nothing is emitted, no fix is written, and [rulesMetadata] and
    [sendRules] stay as they were. *)
Theorem engine_failure_propagates (Helpers : Collaborators)
  (jobConfig : Job.t) (st : WorkerState) (eslint : ESLint) (e : Error) :
  Job.type jobConfig = "lint" \/ Job.type jobConfig = "fix" ->
  resolved Helpers jobConfig = Returns eslint ->
  skips Helpers jobConfig = false ->
  newCLIEngine eslint (optionsOf Helpers jobConfig) = Throws e \/
  (exists cliEngine,
     newCLIEngine eslint (optionsOf Helpers jobConfig) = Returns cliEngine /\
     executeOnText cliEngine (Job.contents jobConfig) (Job.filePath jobConfig)
     = Throws e) ->
  let r := handle Helpers jobConfig st in
  outcome r = Throws e /\
  emitted r = [] /\
  final r = st /\
  (forall report, ~ In (OutputFixes report) (trace r)).
Proof.
  intros Htype Hres Hskip Hfails. cbv zeta.
  rewrite (handle_executing _ _ _ eslint Hres Hskip). cbv zeta.
  assert (Hlint :
    lintJob Helpers (optionsOf Helpers jobConfig) (Job.contents jobConfig)
      eslint (Job.filePath jobConfig) st
    = mkRun st [] (Throws e) \/
    lintJob Helpers (optionsOf Helpers jobConfig) (Job.contents jobConfig)
      eslint (Job.filePath jobConfig) st
    = mkRun st
        [ExecuteOnText (optionsOf Helpers jobConfig) (Job.contents jobConfig)
           (Job.filePath jobConfig)]
        (Throws e)).
  { rewrite lintJob_run.
    destruct Hfails as [-> | (cliEngine & -> & ->)]; [now left | now right]. }
  assert (Hresp :
    exists tr,
      responseOf Helpers jobConfig eslint st = mkRun st tr (Throws e) /\
      emitsOf tr = [] /\ forall report, ~ In (OutputFixes report) tr).
  { destruct Htype as [Htype|Htype].
    - rewrite (respond_lint _ _ _ eslint Htype). cbv zeta.
      destruct Hlint as [-> | ->]; eexists; (split; [reflexivity|]);
        (split; [reflexivity|]); intros report Hin; cbn in Hin;
        intuition discriminate.
    - rewrite (respond_fix _ _ _ eslint Htype), fixJob_run. cbv zeta.
      destruct Hlint as [-> | ->]; eexists; (split; [reflexivity|]);
        (split; [reflexivity|]); intros report Hin; cbn in Hin;
        intuition discriminate. }
  destruct Hresp as (tr & -> & Hnone & Hnofix). cbn [outcome final trace].
  rewrite emitted_trace. cbn [trace].
  rewrite emitsOf_app, emitsOf_prologue. cbn [emitsOf flat_map app].
  repeat split; try exact Hnone.
  intros report Hin. apply in_app_or in Hin as [Hin | [Hin | Hin]].
  - unfold prologue in Hin. apply in_app_or in Hin as [Hin | Hin].
    + destruct (disableFSCache (Job.config jobConfig)); cbn in Hin;
        intuition discriminate.
    + cbn in Hin. intuition discriminate.
  - discriminate.
  - exact (Hnofix report Hin).
Qed.

Lemma engine_failure_propagates_witness :
  let broken :=
    mkESLint
      (fun _ => Returns (mkEngine (fun _ _ => Throws EngineExecutionError)
                           Fixtures.rules1))
      (fun _ => Returns tt) in
  let r := handle (Fixtures.helpers (Returns broken)
                     (Some Fixtures.projectConfig))
             (Fixtures.job "fix" Fixtures.config0) initialState in
  outcome r = Throws EngineExecutionError /\
  emitted r = [] /\
  final r = initialState.
Proof.
  cbv zeta.
  destruct (engine_failure_propagates
              (Fixtures.helpers
                 (Returns
                    (mkESLint
                       (fun _ =>
                          Returns (mkEngine
                                     (fun _ _ => Throws EngineExecutionError)
                                     Fixtures.rules1))
                       (fun _ => Returns tt)))
                 (Some Fixtures.projectConfig))
              (Fixtures.job "fix" Fixtures.config0) initialState
              (mkESLint
                 (fun _ =>
                    Returns (mkEngine (fun _ _ => Throws EngineExecutionError)
                               Fixtures.rules1))
                 (fun _ => Returns tt))
              EngineExecutionError)
    as (Hout & Hemit & Hfinal & _).
  - now right.
  - reflexivity.
  - reflexivity.
  - right. eexists. split; reflexivity.
  - repeat split; assumption.
Defined.

(** X5: in a fix request the snapshot is synchronised before the fixes
    are written: when [outputFixes] throws, the exception leaves the
    handler and nothing is emitted, yet [rulesMetadata] and [sendRules]
    are already those of the engine's rules. *)
Theorem fix_output_failure_keeps_sync (Helpers : Collaborators)
  (jobConfig : Job.t) (st : WorkerState) (eslint : ESLint) (report : Report)
  (rules : JsMap.t) (e : Error) :
  Job.type jobConfig = "fix" ->
  engineRan Helpers jobConfig eslint report rules ->
  outputFixes eslint report = Throws e ->
  handle Helpers jobConfig st
  = mkRun (synced Helpers rules st)
      (prologue jobConfig
       ++ [GetConfigPath (fileDirOf jobConfig);
           ExecuteOnText (optionsOf Helpers jobConfig)
             (Job.contents jobConfig) (Job.filePath jobConfig);
           OutputFixes report])
      (Throws e).
Proof.
  intros Htype (Hres & Hskip & cliEngine & Hnew & Hexec & Hrules) Hfix.
  rewrite (handle_executing _ _ _ eslint Hres Hskip).
  rewrite (respond_fix _ _ _ eslint Htype), fixJob_run, lintJob_run.
  rewrite Hnew, Hexec. cbv zeta. cbn [outcome final trace].
  rewrite Hfix, Hrules. reflexivity.
Qed.

Lemma fix_output_failure_keeps_sync_witness :
  let readOnly :=
    mkESLint
      (fun _ => Returns (mkEngine (fun _ _ => Returns Fixtures.dirtyReport)
                           Fixtures.rules1))
      (fun _ => Throws (JsError "EACCES")) in
  let r := handle (Fixtures.helpers (Returns readOnly)
                     (Some Fixtures.projectConfig))
             (Fixtures.job "fix" Fixtures.config0) initialState in
  outcome r = Throws (JsError "EACCES") /\
  emitted r = [] /\
  final r = mkState Fixtures.rules1 true.
Proof.
  cbv zeta.
  rewrite (fix_output_failure_keeps_sync
             (Fixtures.helpers
                (Returns
                   (mkESLint
                      (fun _ =>
                         Returns (mkEngine
                                    (fun _ _ => Returns Fixtures.dirtyReport)
                                    Fixtures.rules1))
                      (fun _ => Throws (JsError "EACCES"))))
                (Some Fixtures.projectConfig))
             (Fixtures.job "fix" Fixtures.config0) initialState
             (mkESLint
                (fun _ =>
                   Returns (mkEngine (fun _ _ => Returns Fixtures.dirtyReport)
                              Fixtures.rules1))
                (fun _ => Throws (JsError "EACCES")))
             Fixtures.dirtyReport Fixtures.rules1 (JsError "EACCES")).
  - repeat split.
  - reflexivity.
  - repeat split. eexists. repeat split.
  - reflexivity.
Defined.

Section ResponseShapes.

Variable Helpers : Collaborators.
Variables (jobConfig : Job.t) (eslint : ESLint).

(** What [respond] may call, by job type. *)
Lemma respond_trace (st : WorkerState) :
  let run :=
    ExecuteOnText (optionsOf Helpers jobConfig) (Job.contents jobConfig)
      (Job.filePath jobConfig) in
  let tr := trace (responseOf Helpers jobConfig eslint st) in
  tr = [] \/
  ((Job.type jobConfig = "lint" \/ Job.type jobConfig = "fix") /\ tr = [run]) \/
  (Job.type jobConfig = "fix" /\
   exists cliEngine report,
     newCLIEngine eslint (optionsOf Helpers jobConfig) = Returns cliEngine /\
     executeOnText cliEngine (Job.contents jobConfig) (Job.filePath jobConfig)
     = Returns report /\
     tr = [run; OutputFixes report]) \/
  (Job.type jobConfig = "debug" /\ exists dir, tr = [FindESLintDirectory dir]).
Proof.
  cbv zeta.
  destruct (string_dec (Job.type jobConfig) "lint") as [Hlint|Hlint].
  { rewrite (respond_lint _ _ _ eslint Hlint), lintJob_run. cbv zeta.
    destruct (newCLIEngine eslint _) as [e|cliEngine]; [now left|].
    destruct (executeOnText cliEngine _ _); right; left; auto. }
  destruct (string_dec (Job.type jobConfig) "fix") as [Hfix|Hfix].
  { rewrite (respond_fix _ _ _ eslint Hfix), fixJob_run, lintJob_run.
    cbv zeta.
    destruct (newCLIEngine eslint _) as [e|cliEngine] eqn:Hnew; [now left|].
    destruct (executeOnText cliEngine _ _) as [e|report] eqn:Hexec.
    - right; left; auto.
    - right; right; left. split; [exact Hfix|].
      now exists cliEngine, report. }
  destruct (string_dec (Job.type jobConfig) "debug") as [Hdebug|Hdebug].
  - rewrite (respond_debug _ _ _ eslint Hdebug). cbv zeta.
    right; right; right. split; [exact Hdebug|]. eexists. reflexivity.
  - rewrite (respond_unknown _ _ _ eslint Hlint Hfix Hdebug). now left.
Qed.

(** [respond] reads the module state only through the snapshot. *)
Lemma respond_flag (snapshot : JsMap.t) (flag flag' : bool) :
  let r := responseOf Helpers jobConfig eslint (mkState snapshot flag) in
  let r' := responseOf Helpers jobConfig eslint (mkState snapshot flag') in
  trace r = trace r' /\
  outcome r = outcome r' /\
  rulesMetadata (final r) = rulesMetadata (final r').
Proof.
  cbv zeta.
  destruct (string_dec (Job.type jobConfig) "lint") as [Hlint|Hlint].
  { rewrite !(respond_lint _ _ _ eslint Hlint), !lintJob_run. cbv zeta.
    destruct (newCLIEngine eslint _) as [e|cliEngine]; [now repeat split|].
    destruct (executeOnText cliEngine _ _); now repeat split. }
  destruct (string_dec (Job.type jobConfig) "fix") as [Hfix|Hfix].
  { rewrite !(respond_fix _ _ _ eslint Hfix), !fixJob_run, !lintJob_run.
    cbv zeta.
    destruct (newCLIEngine eslint _) as [e|cliEngine]; [now repeat split|].
    destruct (executeOnText cliEngine _ _); now repeat split. }
  destruct (string_dec (Job.type jobConfig) "debug") as [Hdebug|Hdebug].
  - rewrite !(respond_debug _ _ _ eslint Hdebug). now repeat split.
  - rewrite !(respond_unknown _ _ _ eslint Hlint Hfix Hdebug).
    now repeat split.
Qed.

End ResponseShapes.

(** A request reads the module state only through the snapshot. *)
Lemma handle_flag (Helpers : Collaborators) (jobConfig : Job.t)
  (snapshot : JsMap.t) (flag flag' : bool) :
  let r := handle Helpers jobConfig (mkState snapshot flag) in
  let r' := handle Helpers jobConfig (mkState snapshot flag') in
  trace r = trace r' /\
  outcome r = outcome r' /\
  rulesMetadata (final r) = rulesMetadata (final r').
Proof.
  cbv zeta.
  destruct (resolved Helpers jobConfig) as [e|eslint] eqn:Hres.
  { now rewrite !(handle_resolution_throws _ _ _ e Hres). }
  destruct (skips Helpers jobConfig) eqn:Hskip.
  { now rewrite !(handle_skips _ _ _ eslint Hres Hskip). }
  rewrite !(handle_executing _ _ _ eslint Hres Hskip). cbv zeta.
  destruct (respond_flag Helpers jobConfig eslint snapshot flag flag')
    as (Htrace & Hout & Hfinal).
  rewrite Htrace, Hout.
  destruct (outcome (responseOf Helpers jobConfig eslint
                       (mkState snapshot flag'))); now repeat split.
Qed.

(** X6: [sendRules] is never read before [lintJob] has set it: for every
    sequence of requests, what each request calls and emits, how it ends,
    and the snapshot left at the end are the same whatever the flag was
    when the sequence began; a diff found by an earlier request (a fix,
    say) never puts [updatedRules] into a later answer. *)
Theorem stale_sendRules_never_read
  (requests : list (Collaborators * Job.t)) (snapshot : JsMap.t)
  (flag flag' : bool) :
  map trace (serve requests (mkState snapshot flag))
  = map trace (serve requests (mkState snapshot flag')) /\
  map outcome (serve requests (mkState snapshot flag))
  = map outcome (serve requests (mkState snapshot flag')) /\
  rulesMetadata (stateAfter requests (mkState snapshot flag))
  = rulesMetadata (stateAfter requests (mkState snapshot flag')).
Proof.
  revert snapshot flag flag'.
  induction requests as [|[H j] requests IH]; intros snapshot flag flag';
    [now repeat split|].
  cbn [serve map stateAfter fold_left fst snd].
  destruct (handle_flag H j snapshot flag flag') as (Htrace & Hout & Hfinal).
  destruct (final (handle H j (mkState snapshot flag))) as [m b].
  destruct (final (handle H j (mkState snapshot flag'))) as [m' b'].
  cbn [rulesMetadata] in Hfinal. subst m'.
  destruct (IH m b b') as (IHtrace & IHout & IHfinal).
  rewrite Htrace, Hout, IHtrace, IHout. repeat split. exact IHfinal.
Qed.

(** X7: a request runs the engine at most once, on the request's own
    [contents] and [filePath] with the options built for it, and only for
    the types lint and fix; [outputFixes] is called at most once, only by
    a fix request, after the engine returned, and on the very report it
    returned. *)
Theorem engine_calls_of_a_request (Helpers : Collaborators)
  (jobConfig : Job.t) (st : WorkerState) :
  let r := handle Helpers jobConfig st in
  let run :=
    ExecuteOnText (optionsOf Helpers jobConfig) (Job.contents jobConfig)
      (Job.filePath jobConfig) in
  executions r = [] \/
  ((Job.type jobConfig = "lint" \/ Job.type jobConfig = "fix") /\
   executions r = [run]) \/
  (Job.type jobConfig = "fix" /\
   exists eslint report rules,
     engineRan Helpers jobConfig eslint report rules /\
     executions r = [run; OutputFixes report]).
Proof.
  cbv zeta. unfold executions.
  destruct (resolved Helpers jobConfig) as [e|eslint] eqn:Hres.
  { left. rewrite (handle_resolution_throws _ _ _ e Hres).
    apply executions_prologue. }
  destruct (skips Helpers jobConfig) eqn:Hskip.
  { left. rewrite (handle_skips _ _ _ eslint Hres Hskip). cbn [trace].
    now rewrite filter_app, executions_prologue. }
  assert (Htrace :
    filter isExecution (trace (handle Helpers jobConfig st))
    = filter isExecution (trace (responseOf Helpers jobConfig eslint st))).
  { rewrite (handle_executing _ _ _ eslint Hres Hskip). cbv zeta.
    destruct (outcome (responseOf Helpers jobConfig eslint st));
      cbn [trace]; rewrite filter_app, executions_prologue; cbn;
      [reflexivity|].
    rewrite filter_app. cbn. now rewrite app_nil_r. }
  rewrite Htrace.
  destruct (respond_trace Helpers jobConfig eslint st)
    as [-> | [[Htype ->] | [(Htype & cliEngine & report & Hnew & Hexec & ->)
                           | (_ & dir & ->)]]].
  - now left.
  - right; left. now split.
  - right; right. split; [exact Htype|].
    exists eslint, report, (getRules Helpers cliEngine).
    split; [|reflexivity]. repeat split; try assumption.
    now exists cliEngine.
  - now left.
Qed.

(** X8: the cache is cleared exactly when [config.disableFSCache] is set,
    once, before anything else, and the engine is resolved exactly once,
    right after: nothing the handler does afterwards clears the cache or
    resolves the engine again. *)
Theorem cache_cleared_and_engine_resolved_once (Helpers : Collaborators)
  (jobConfig : Job.t) (st : WorkerState) :
  exists rest,
    trace (handle Helpers jobConfig st)
    = (if disableFSCache (Job.config jobConfig) then [FindCacheClear] else [])
      ++ GetESLintInstance (fileDirOf jobConfig) (Job.config jobConfig)
           (Job.projectPath jobConfig)
         :: rest /\
    ~ In FindCacheClear rest /\
    (forall dir config project,
       ~ In (GetESLintInstance dir config project) rest).
Proof.
  assert (Hrespond : forall eslint,
            ~ In FindCacheClear
                (trace (responseOf Helpers jobConfig eslint st)) /\
            forall dir config project,
              ~ In (GetESLintInstance dir config project)
                  (trace (responseOf Helpers jobConfig eslint st))).
  { intros eslint.
    destruct (respond_trace Helpers jobConfig eslint st)
      as [-> | [[_ ->] | [(_ & cliEngine & report & _ & _ & ->)
                         | (_ & dir & ->)]]];
      (split; [|intros d c p]); cbn; intuition discriminate. }
  destruct (resolved Helpers jobConfig) as [e|eslint] eqn:Hres.
  { rewrite (handle_resolution_throws _ _ _ e Hres). exists [].
    split; [reflexivity|]. split; [|intros d c p]; intros []. }
  destruct (skips Helpers jobConfig) eqn:Hskip.
  { rewrite (handle_skips _ _ _ eslint Hres Hskip). cbn [trace].
    unfold prologue. rewrite <- app_assoc. cbn [app].
    eexists. split; [reflexivity|].
    split; [|intros d c p]; cbn; intuition discriminate. }
  destruct (Hrespond eslint) as [Hclear Hresolve].
  rewrite (handle_executing _ _ _ eslint Hres Hskip). cbv zeta.
  destruct (outcome (responseOf Helpers jobConfig eslint st));
    cbn [trace]; unfold prologue; rewrite <- app_assoc; cbn [app];
    (eexists; split; [reflexivity|]).
  - split; [|intros d c p]; intros [Hin|Hin]; try discriminate.
    + exact (Hclear Hin).
    + exact (Hresolve d c p Hin).
  - split; [|intros d c p]; intros [Hin|Hin]; try discriminate;
      apply in_app_or in Hin as [Hin|[Hin|[]]]; try discriminate.
    + exact (Hclear Hin).
    + exact (Hresolve d c p Hin).
Qed.

(** ** Further properties across requests *)

Lemma stateAfter_app (before after : list (Collaborators * Job.t))
  (st : WorkerState) :
  stateAfter (before ++ after) st = stateAfter after (stateAfter before st).
Proof. apply fold_left_app. Qed.


(** X9: a fix request reports "Fix complete." exactly when a lint request
    given the same report answers with no messages: both look at the
    first result entry only. *)
Theorem fix_complete_iff_lint_clean (Helpers Helpers' : Collaborators)
  (lintRequest fixRequest : Job.t) (st st' : WorkerState)
  (eslint eslint' : ESLint) (report : Report) (rules rules' : JsMap.t) :
  Job.type lintRequest = "lint" ->
  Job.type fixRequest = "fix" ->
  engineRan Helpers lintRequest eslint report rules ->
  engineRan Helpers' fixRequest eslint' report rules' ->
  outputFixes eslint' report = Returns tt ->
  exists msgs updated status,
    emitted (handle Helpers lintRequest st)
    = [(Job.emitKey lintRequest, LintResponse msgs updated)] /\
    emitted (handle Helpers' fixRequest st')
    = [(Job.emitKey fixRequest, FixResponse status)] /\
    (status = fixComplete <-> msgs = []) /\
    (status = fixIncomplete <-> msgs <> []).
Proof.
  intros Hlint Hfix Hran Hran' Hout.
  rewrite (handle_lint _ _ _ eslint report rules Hlint Hran).
  rewrite (handle_fix _ _ _ eslint' report rules' Hfix Hran' Hout).
  rewrite !emitted_trace. cbn [trace].
  rewrite !emitsOf_app, !emitsOf_prologue. cbn [emitsOf flat_map app].
  eexists. eexists. eexists. split; [reflexivity|]. split; [reflexivity|].
  unfold nothingLeft, firstMessages.
  assert (Hdiffer := fix_statuses_differ).
  destruct (results report) as [|first rest];
    [|destruct (messages first) as [|m ms]];
    split; split; intros Heq; try reflexivity; try discriminate Heq;
    try (exfalso; apply Hdiffer; exact Heq);
    try (exfalso; apply Hdiffer; symmetry; exact Heq);
    try (exfalso; apply Heq; reflexivity); try discriminate.
Qed.

Lemma fix_complete_iff_lint_clean_witness :
  let eslint := Fixtures.engineOf Fixtures.cleanReport Fixtures.rules1 in
  let Helpers := Fixtures.helpers (Returns eslint)
                   (Some Fixtures.projectConfig) in
  exists updated,
    emitted (handle Helpers (Fixtures.job "lint" Fixtures.config0)
               initialState)
    = [("job-1", LintResponse [] updated)] /\
    emitted (handle Helpers (Fixtures.job "fix" Fixtures.config0)
               initialState)
    = [("job-1", FixResponse "Linter-ESLint: Fix complete.")].
Proof.
  cbv zeta.
  destruct (fix_complete_iff_lint_clean
              (Fixtures.helpers
                 (Returns (Fixtures.engineOf Fixtures.cleanReport
                             Fixtures.rules1))
                 (Some Fixtures.projectConfig))
              (Fixtures.helpers
                 (Returns (Fixtures.engineOf Fixtures.cleanReport
                             Fixtures.rules1))
                 (Some Fixtures.projectConfig))
              (Fixtures.job "lint" Fixtures.config0)
              (Fixtures.job "fix" Fixtures.config0)
              initialState initialState
              (Fixtures.engineOf Fixtures.cleanReport Fixtures.rules1)
              (Fixtures.engineOf Fixtures.cleanReport Fixtures.rules1)
              Fixtures.cleanReport Fixtures.rules1 Fixtures.rules1
              eq_refl eq_refl)
    as (msgs & updated & status & Hlint & Hfix & Hiff & _).
  - repeat split. eexists. repeat split.
  - repeat split. eexists. repeat split.
  - reflexivity.
  - exists updated. rewrite Hlint in *. rewrite Hfix in *.
    assert (Hmsgs : msgs = []).
    { pose proof Hlint as Hcomputed. vm_compute in Hcomputed.
      now injection Hcomputed. }
    subst msgs. split; [reflexivity|].
    now rewrite (proj2 Hiff eq_refl).
Defined.



(** X11: the snapshot a worker holds is never a mixture: after any
    sequence of requests it is the snapshot the worker started with, or
    the rule map, rebuilt from empty, of the engine one of the served
    requests ran. *)
Theorem snapshot_is_one_engines_rules
  (requests : list (Collaborators * Job.t)) (st0 : WorkerState) :
  rulesMetadata (stateAfter requests st0) = rulesMetadata st0 \/
  exists Helpers jobConfig eslint report rules,
    In (Helpers, jobConfig) requests /\
    engineRan Helpers jobConfig eslint report rules /\
    rulesMetadata (stateAfter requests st0) = rebuild JsMap.empty rules.
Proof.
  induction requests as [|[H j] requests IH] using rev_ind; [now left|].
  rewrite stateAfter_app. cbn [stateAfter fold_left fst snd].
  fold (stateAfter requests st0).
  destruct (handle_final H j (stateAfter requests st0))
    as [-> | (eslint & report & rules & Hran & ->)].
  - destruct IH as [IH | (H' & j' & eslint & report & rules & Hin & Hran & IH)];
      [now left|].
    right. exists H', j', eslint, report, rules.
    split; [apply in_or_app; now left|]. now split.
  - unfold synced. cbn [rulesMetadata].
    destruct (didRulesChange H (rulesMetadata (stateAfter requests st0)) rules).
    + right. exists H, j, eslint, report, rules.
      split; [apply in_or_app; right; now left|]. now split.
    + destruct IH as [IH | (H' & j' & eslint' & report' & rules' & Hin & Hran'
                            & IH)]; [now left|].
      right. exists H', j', eslint', report', rules'.
      split; [apply in_or_app; now left|]. now split.
Qed.

(** ** The fixtures of the helper tests *)

(** X12: the global fixture of the helper tests is one directory on
    every platform: where the test's [globalNodePath] gains a [lib] on
    win32, the path the test expects loses it, so the engine is expected
    at [fixtures/global-eslint/lib/node_modules/eslint] next to the test
    file whatever [process.platform] is. *)
Theorem global_fixture_platform_independent (platform : string)
  (dirname : Path.t) :
  WorkerHelpersSpec.expectedEslintPath platform dirname
  = Path.sub dirname
      ["fixtures"; "global-eslint"; "lib"; "node_modules"; "eslint"].
Proof.
  unfold WorkerHelpersSpec.expectedEslintPath,
    WorkerHelpersSpec.globalNodePath, WorkerHelpersSpec.getFixturesPath,
    Path.sub, Path.join.
  destruct (String.eqb platform "win32"); cbn [Path.absolute Path.segments];
    rewrite <- !app_assoc; reflexivity.
Qed.
